(** * frida-push: a shallow embedding of the two deployment scripts

    The repository holds two variants of one tool: the packaged command
    [src/frida_push/command.py] and the older standalone script
    [src/push.py].  Both are sequential orchestration of three external
    collaborators: the adb device bridge, an HTTP client and the lzma
    decompressor.  The embedding below keeps the Python control flow and
    replaces the collaborators by a [host] record of oracles; every effect
    of a run is recorded in a chronological trace of events next to an
    explicit file system. *)

From Stdlib Require Import ZArith Ascii String List Lia Bool DecimalString.
From stdpp Require Import base option list gmap strings.

Local Open Scope Z_scope.

(** ** Python bytes and str

    A Python [bytes] object is a Rocq [string] (a list of 8-bit
    characters).  A Python [str] is represented by its UTF-8 encoding, so
    [bytes.decode("utf-8")] is the strict validity check that keeps the
    bytes, and equality of two [str] values is equality of the encodings. *)

Module py.

Definition byte_val (c : ascii) : Z := Z.of_N (N_of_ascii c).

Definition in_range (lo hi : Z) (c : ascii) : bool :=
  (lo <=? byte_val c) && (byte_val c <=? hi).

(** [bytes.lower()]: only the ASCII letters A-Z change. *)
Definition byte_lower (c : ascii) : ascii :=
  if in_range 65 90 c then ascii_of_N (N_of_ascii c + 32) else c.

Fixpoint bytes_lower (b : string) : string :=
  match b with
  | EmptyString => EmptyString
  | String c b' => String (byte_lower c) (bytes_lower b')
  end.

(** The separator set of [bytes.strip()]: space, \t, \n, \v, \f, \r. *)
Definition bytes_isspace (c : ascii) : bool :=
  in_range 9 13 c || (byte_val c =? 32).

Fixpoint bytes_lstrip (b : string) : string :=
  match b with
  | EmptyString => EmptyString
  | String c b' => if bytes_isspace c then bytes_lstrip b' else b
  end.

Fixpoint bytes_rstrip (b : string) : string :=
  match b with
  | EmptyString => EmptyString
  | String c b' =>
      match bytes_rstrip b' with
      | EmptyString => if bytes_isspace c then EmptyString else String c EmptyString
      | r => String c r
      end
  end.

Definition bytes_strip (b : string) : string := bytes_rstrip (bytes_lstrip b).

(** Strict UTF-8 validity, as CPython's decoder checks it: no overlong
    forms, no surrogates, nothing above U+10FFFF. *)
Definition cont := in_range 128 191.

Fixpoint utf8_valid (b : string) : bool :=
  match b with
  | EmptyString => true
  | String c0 t0 =>
      if in_range 0 127 c0 then utf8_valid t0
      else
        match t0 with
        | EmptyString => false
        | String c1 t1 =>
            if in_range 194 223 c0 then cont c1 && utf8_valid t1
            else
              match t1 with
              | EmptyString => false
              | String c2 t2 =>
                  if in_range 224 239 c0 then
                    (if byte_val c0 =? 224 then in_range 160 191 c1
                     else if byte_val c0 =? 237 then in_range 128 159 c1
                     else cont c1)
                    && cont c2 && utf8_valid t2
                  else
                    match t2 with
                    | EmptyString => false
                    | String c3 t3 =>
                        in_range 240 244 c0
                        && (if byte_val c0 =? 240 then in_range 144 191 c1
                            else if byte_val c0 =? 244 then in_range 128 143 c1
                            else cont c1)
                        && cont c2 && cont c3 && utf8_valid t3
                    end
              end
        end
  end.

(** Values that flow through the architecture detection: the standalone
    script compares a [bytes] object with [str] literals, and in Python 3
    a [bytes] never equals a [str]. *)
Inductive value :=
| Str (s : string)
| Bytes (b : string).

Definition value_eqb (x y : value) : bool :=
  match x, y with
  | Str s, Str t => bool_decide (s = t)
  | Bytes s, Bytes t => bool_decide (s = t)
  | _, _ => false
  end.

(** [x in l] on a Python list. *)
Definition contains (x : value) (l : list value) : bool :=
  existsb (value_eqb x) l.

(** [if v:] on a [str] or [bytes] value. *)
Definition truthy (v : value) : bool :=
  match v with
  | Str EmptyString | Bytes EmptyString => false
  | _ => true
  end.

(** What [str.format] and [print] show for a value ([repr] of a [bytes]
    is given for printable content only). *)
Definition to_text (v : value) : string :=
  match v with
  | Str s => s
  | Bytes b => "b'" +:+ b +:+ "'"
  end.

End py.

(** ** Exceptions, events and the world *)

Inductive exn :=
| SystemExit (code : Z)
| CalledProcessError (cmd : string) (code : Z)
| UnicodeDecodeError
| ValueError
| IndexError
| KeyError (key : string)
| TypeError
| FileExistsError (path : string)
| FileNotFoundError (path : string)
| IsADirectoryError (path : string)
| NotADirectoryError (path : string)
| LZMAError
| ConnectionError (url : string)
| TimeoutExpired.

Inductive result (A : Type) :=
| Return (a : A)
| Raise (e : exn).
Arguments Return {A} a.
Arguments Raise {A} e.

Inductive level := INFO | WARNING | ERROR.

(** What a finished child process leaves behind.  [runtime] is the time in
    seconds after which it exits, for the bounded [wait(3)]. *)
Record proc_result := {
  returncode : Z;
  stdout : string;
  stderr : string;
  runtime : Z
}.

(** An HTTP response: the status code and the body as the chunks that
    [iter_content] yields. *)
Record response := {
  status_code : Z;
  content : list string
}.

(** One entry per effect, in the order the run performs them. *)
Inductive event :=
| EvLog (l : level) (msg : string)       (* logging, on standard output *)
| EvPrint (msg : string)                 (* print *)
| EvStderr (msg : string)                (* argparse's exit message *)
| EvShell (cmd : string)                 (* check_output(cmd, shell=True) *)
| EvSystem (cmd : string)                (* os.system(cmd) *)
| EvPopen (argv : list string)           (* subprocess.Popen(argv) *)
| EvHttpGet (url : string)               (* requests.get *)
| EvMakedirs (path : string)             (* a successful os.makedirs *)
| EvOpenWrite (path : string)            (* open(path, "wb") *)
| EvWrite (path : string) (data : string)
| EvUnlink (path : string).

Inductive node :=
| File (data : string)
| Dir.

#[global] Instance node_eq_dec : EqDecision node.
Proof. solve_decision. Defined.

Record world := {
  fs : gmap string node;
  trace : list event
}.

(** The collaborators.  A run issues every command and every request at
    most once, so an oracle is a function of the command alone. *)
Record host := {
  shell : string → proc_result;              (* /bin/sh -c cmd *)
  spawn : list string → proc_result;         (* a program with its arguments *)
  http : string → result response;           (* HTTP GET *)
  lzma_decompress : string → option string;
  home : string;
  FRIDA_VERSION : string
}.

(** ** The state-and-exception monad of a run *)

Definition M (A : Type) : Type := world → result A * world.

Definition ret {A} (a : A) : M A := λ w, (Return a, w).
Definition raise {A} (e : exn) : M A := λ w, (Raise e, w).
Definition bind {A B} (m : M A) (k : A → M B) : M B :=
  λ w, match m w with
       | (Return a, w') => k a w'
       | (Raise e, w') => (Raise e, w')
       end.

(** [try: m except: pass] with a bare [except], which catches everything. *)
Definition try_pass (m : M unit) : M unit :=
  λ w, match m w with
       | (Return _, w') => (Return tt, w')
       | (Raise _, w') => (Return tt, w')
       end.

(** [try: x = m except: pass], the variable keeping its old value [d]. *)
Definition try_or {A} (d : A) (m : M A) : M A :=
  λ w, match m w with
       | (Return a, w') => (Return a, w')
       | (Raise _, w') => (Return d, w')
       end.

Notation "x <- m ;; k" := (bind m (λ x, k))
  (at level 100, m at next level, right associativity).
Notation "m ;;; k" := (bind m (λ _, k))
  (at level 100, right associativity).

Definition lift {A} (r : result A) : M A := λ w, (r, w).

Definition emit (e : event) : M unit :=
  λ w, (Return tt, {| fs := fs w; trace := trace w ++ [e] |}).

Definition get_fs : M (gmap string node) := λ w, (Return (fs w), w).
Definition put_fs (f : gmap string node) : M unit :=
  λ w, (Return tt, {| fs := f; trace := trace w |}).

Definition log (l : level) (msg : string) : M unit := emit (EvLog l msg).
Definition print (msg : string) : M unit := emit (EvPrint msg).

(** [sys.exit(code)]. *)
Definition sys_exit {A} (code : Z) : M A := raise (SystemExit code).

(** [parser.exit(status, message)]: the message goes to standard error,
    then [sys.exit(status)]. *)
Definition parser_exit {A} (status : Z) (message : string) : M A :=
  emit (EvStderr message) ;;; sys_exit status.

(** ** String helpers of the Python library *)

Module str.

(** [template.format(args...)] for templates whose fields are all the
    automatic [{}]; doubled braces are literal braces, anything else after
    a brace is refused. *)
Fixpoint format (t : string) (args : list string) : result string :=
  match t with
  | EmptyString => Return EmptyString
  | String "{" (String "}" t') =>
      match args with
      | a :: args' =>
          match format t' args' with
          | Return s => Return (a +:+ s)
          | Raise e => Raise e
          end
      | [] => Raise IndexError
      end
  | String "{" (String "{" t') =>
      match format t' args with
      | Return s => Return (String "{" s)
      | Raise e => Raise e
      end
  | String "}" (String "}" t') =>
      match format t' args with
      | Return s => Return (String "}" s)
      | Raise e => Raise e
      end
  | String "{" _ | String "}" _ => Raise ValueError
  | String c t' =>
      match format t' args with
      | Return s => Return (String c s)
      | Raise e => Raise e
      end
  end.

(** [sep.join(l)]. *)
Fixpoint join (sep : string) (l : list string) : string :=
  match l with
  | [] => ""
  | [x] => x
  | x :: l' => x +:+ sep +:+ join sep l'
  end.

End str.

Module text.

Definition nl : string := String "010"%char "".
Definition tab : string := String "009"%char "".
Definition dq : string := String "034"%char "".
Definition cr : ascii := "013"%char.

(** Decimal rendering of an integer, as [str.format] shows an [int]. *)
Definition of_Z (z : Z) : string :=
  DecimalString.NilZero.string_of_int (Z.to_int z).

(** Length in bytes of the white-space character (in the sense of
    [str.isspace]) that [s] starts with, 0 when it starts with none.  The
    characters are U+0009..U+000D, U+001C..U+0020, U+0085, U+00A0, U+1680,
    U+2000..U+200A, U+2028, U+2029, U+202F, U+205F and U+3000, matched on
    their UTF-8 encodings. *)
Definition space_len (s : string) : nat :=
  match s with
  | EmptyString => 0%nat
  | String c0 t0 =>
      let b0 := py.byte_val c0 in
      if py.in_range 9 13 c0 || py.in_range 28 32 c0 then 1%nat
      else
        match t0 with
        | EmptyString => 0%nat
        | String c1 t1 =>
            let b1 := py.byte_val c1 in
            if (b0 =? 194) && ((b1 =? 133) || (b1 =? 160)) then 2%nat
            else
              match t1 with
              | EmptyString => 0%nat
              | String c2 _ =>
                  let b2 := py.byte_val c2 in
                  if (b0 =? 225) && (b1 =? 154) && (b2 =? 128) then 3%nat
                  else if (b0 =? 226) && (b1 =? 128)
                          && (py.in_range 128 138 c2 || (b2 =? 168)
                              || (b2 =? 169) || (b2 =? 175)) then 3%nat
                  else if (b0 =? 226) && (b1 =? 129) && (b2 =? 159) then 3%nat
                  else if (b0 =? 227) && (b1 =? 128) && (b2 =? 128) then 3%nat
                  else 0%nat
              end
        end
  end.

(** [s] consists of white-space characters only; [skip] counts the bytes
    still to pass of the character being read. *)
Fixpoint all_space (skip : nat) (s : string) : bool :=
  match s with
  | EmptyString => true
  | String _ s' =>
      match skip with
      | S k => all_space k s'
      | O => match space_len s with
             | O => false
             | S k => all_space k s'
             end
      end
  end.

Fixpoint lstrip (skip : nat) (s : string) : string :=
  match s with
  | EmptyString => EmptyString
  | String _ s' =>
      match skip with
      | S k => lstrip k s'
      | O => match space_len s with
             | O => s
             | S k => lstrip k s'
             end
      end
  end.

Fixpoint rstrip (s : string) : string :=
  match s with
  | EmptyString => EmptyString
  | String c s' => if all_space 0 s then EmptyString else String c (rstrip s')
  end.

(** [s.strip()] on a [str]. *)
Definition strip (s : string) : string := rstrip (lstrip 0 s).

(** [s.split()] on a [str]: the maximal runs of characters that are not
    white space.  [cur] is the run being read. *)
Fixpoint split_space (skip : nat) (cur : string) (s : string) : list string :=
  let flush := match cur with EmptyString => [] | _ => [cur] end in
  match s with
  | EmptyString => flush
  | String c s' =>
      match skip with
      | S k => split_space k cur s'
      | O => match space_len s with
             | O => split_space 0 (cur +:+ String c "") s'
             | S k => flush ++ split_space k "" s'
             end
      end
  end.

(** [s.split(sep)] for a one-character separator: never an empty list. *)
Fixpoint split_on (sep : ascii) (cur : string) (s : string) : list string :=
  match s with
  | EmptyString => [cur]
  | String c s' =>
      if bool_decide (c = sep) then cur :: split_on sep "" s'
      else split_on sep (cur +:+ String c "") s'
  end.

(** [s.replace(c, "")] for a one-character [c]. *)
Fixpoint remove (c : ascii) (s : string) : string :=
  match s with
  | EmptyString => EmptyString
  | String d s' => if bool_decide (d = c) then remove c s' else String d (remove c s')
  end.

(** [fh.readline()] on the whole content: up to and with the first line
    feed. *)
Fixpoint readline (s : string) : string :=
  match s with
  | EmptyString => EmptyString
  | String c s' =>
      if bool_decide (c = "010"%char) then String c "" else String c (readline s')
  end.

End text.

(** ** [os.path] on POSIX *)

Module path.

(** [(head, tail)] around the last slash, the slash staying in [head]. *)
Fixpoint cut (p : string) : string * string :=
  match p with
  | EmptyString => (EmptyString, EmptyString)
  | String c p' =>
      let '(h, t) := cut p' in
      match h with
      | EmptyString =>
          if bool_decide (c = "/"%char) then (String c "", p') else ("", String c t)
      | _ => (String c h, t)
      end
  end.

Fixpoint all_slashes (p : string) : bool :=
  match p with
  | EmptyString => true
  | String c p' => bool_decide (c = "/"%char) && all_slashes p'
  end.

Fixpoint rstrip_slash (p : string) : string :=
  match p with
  | EmptyString => EmptyString
  | String c p' =>
      match rstrip_slash p' with
      | EmptyString => if bool_decide (c = "/"%char) then "" else String c ""
      | r => String c r
      end
  end.

(** [posixpath.split]. *)
Definition split (p : string) : string * string :=
  let '(h, t) := cut p in
  (if all_slashes h then h else rstrip_slash h, t).

Definition basename (p : string) : string := snd (cut p).
Definition dirname (p : string) : string := fst (split p).

(** [posixpath.join] of two components. *)
Definition join (a b : string) : string :=
  match b with
  | String "/" _ => b
  | _ =>
      match a with
      | EmptyString => b
      | _ => if bool_decide (snd (cut a) = "") then a +:+ b else a +:+ "/" +:+ b
      end
  end.

(** [posixpath.expanduser] for a path that starts with [~/], with the
    home directory [h] of the user. *)
Definition expanduser (h : string) (p : string) : string :=
  match p with
  | String "~" rest =>
      match rstrip_slash h +:+ rest with
      | EmptyString => "/"
      | r => r
      end
  | _ => p
  end.

End path.

(** ** The operating system: files, processes, network

    Paths are the strings the program passes; the file system maps a path
    to a file or a directory.  The root and the working directory always
    exist. *)

Module os.

Definition lookup_path (f : gmap string node) (p : string) : option node :=
  match p with
  | EmptyString => None
  | _ => if path.all_slashes p then Some Dir else f !! p
  end.

(** The directory an entry named [p] lives in, [None] for the working
    directory. *)
Definition parent (p : string) : option string :=
  let '(h, t) := path.split p in
  let h := match t with EmptyString => fst (path.split h) | _ => h end in
  match h with EmptyString => None | _ => Some h end.

(** Creating an entry at [p] needs a name and its directory. *)
Definition check_parent (p : string) : M unit :=
  f <- get_fs;;
  match p, parent p with
  | EmptyString, _ => raise (FileNotFoundError p)
  | _, None => ret tt
  | _, Some d =>
      match lookup_path f d with
      | Some Dir => ret tt
      | Some (File _) => raise (NotADirectoryError p)
      | None => raise (FileNotFoundError p)
      end
  end.

Definition path_exists (p : string) : M bool :=
  f <- get_fs;; ret (bool_decide (is_Some (lookup_path f p))).

Definition path_isfile (p : string) : M bool :=
  f <- get_fs;;
  ret (match lookup_path f p with Some (File _) => true | _ => false end).

Definition mkdir (p : string) : M unit :=
  f <- get_fs;;
  match lookup_path f p with
  | Some _ => raise (FileExistsError p)
  | None => check_parent p;;; put_fs (<[p := Dir]> f)
  end.

(** [os.makedirs(name)]: the missing ancestors first, then [name];
    [fuel] bounds the recursion over the ancestors. *)
Fixpoint makedirs_rec (fuel : nat) (name : string) : M unit :=
  let '(head, tail) := path.split name in
  let '(head, tail) :=
    match tail with EmptyString => path.split head | _ => (head, tail) end in
  missing <- (ex <- path_exists head;;
              ret (negb (bool_decide (head = "")) && negb (bool_decide (tail = ""))
                   && negb ex));;
  if missing then
    match fuel with
    | O => mkdir name
    | S fuel' =>
        (λ w, match makedirs_rec fuel' head w with
              | (Raise (FileExistsError _), w') => (Return tt, w')
              | r => r
              end);;;
        if bool_decide (tail = ".") then ret tt else mkdir name
    end
  else mkdir name.

Definition makedirs (name : string) : M unit :=
  makedirs_rec (String.length name) name;;; emit (EvMakedirs name).

(** [open(p, "wb")]: the file is created or truncated. *)
Definition open_wb (p : string) : M unit :=
  f <- get_fs;;
  match lookup_path f p with
  | Some Dir => raise (IsADirectoryError p)
  | _ => check_parent p;;; put_fs (<[p := File ""]> f);;; emit (EvOpenWrite p)
  end.

(** [fh.write(data)] on the file opened at [p]. *)
Definition write (p : string) (data : string) : M unit :=
  f <- get_fs;;
  match f !! p with
  | Some (File old) => put_fs (<[p := File (old +:+ data)]> f);;; emit (EvWrite p data)
  | _ => raise ValueError
  end.

Fixpoint write_all (p : string) (chunks : list string) : M unit :=
  match chunks with
  | [] => ret tt
  | c :: cs => write p c;;; write_all p cs
  end.

Definition read_file (p : string) : M string :=
  f <- get_fs;;
  match lookup_path f p with
  | Some (File d) => ret d
  | Some Dir => raise (IsADirectoryError p)
  | None => raise (FileNotFoundError p)
  end.

Definition unlink (p : string) : M unit :=
  f <- get_fs;;
  match lookup_path f p with
  | Some (File _) => put_fs (delete p f);;; emit (EvUnlink p)
  | Some Dir => raise (IsADirectoryError p)
  | None => raise (FileNotFoundError p)
  end.

(** [os.system(cmd)]: the wait status of the shell, the exit code in its
    high byte. *)
Definition system (env : host) (cmd : string) : M Z :=
  emit (EvSystem cmd);;;
  ret (returncode (shell env cmd) * 256).

(** What the shell does for a redirection [> file]: it opens [file] the
    way [open(file, "wb")] would, and the output ends up in it.  When the
    shell cannot open the file it reports that itself and the file system
    stays as it is.  Python sees neither an exception nor a file of its
    own. *)
Definition redirect (file data : string) : M unit :=
  λ w, match (open_wb file;;; write file data) w with
       | (Return _, w') => (Return tt, {| fs := fs w'; trace := trace w |})
       | (Raise _, _) => (Return tt, w)
       end.

(** [os.system(pipeline + " > " + file)]: the shell runs the line, the
    output of the pipeline going to [file]; the call returns the wait
    status of the whole line and never raises. *)
Definition system_to (env : host) (pipeline file : string) : M Z :=
  emit (EvSystem (pipeline +:+ " > " +:+ file));;;
  redirect file (stdout (shell env pipeline));;;
  ret (returncode (shell env (pipeline +:+ " > " +:+ file)) * 256).

End os.

Module subprocess.

(** [check_output(cmd, shell=True)]. *)
Definition check_output (env : host) (cmd : string) : M string :=
  emit (EvShell cmd);;;
  let r := shell env cmd in
  if returncode r =? 0 then ret (stdout r)
  else raise (CalledProcessError cmd (returncode r)).

(** [Popen(argv, stdout=PIPE, stderr=PIPE)]. *)
Definition Popen (env : host) (argv : list string) : M proc_result :=
  emit (EvPopen argv);;;
  ret (spawn env argv).

(** [res.wait()] and [res.wait(timeout)]. *)
Definition wait (res : proc_result) : M Z := ret (returncode res).

Definition wait_for (res : proc_result) (timeout : Z) : M Z :=
  if runtime res <=? timeout then ret (returncode res) else raise TimeoutExpired.

End subprocess.

(** [requests.get(url, stream=True)]. *)
Definition requests_get (env : host) (url : string) : M response :=
  emit (EvHttpGet url);;;
  lift (http env url).

(** [lzma.open(p).read()]. *)
Definition lzma_read (env : host) (p : string) : M string :=
  d <- os.read_file p;;
  match lzma_decompress env d with
  | Some x => ret x
  | None => raise LZMAError
  end.

(** [b.decode("utf-8")]. *)
Definition decode (b : string) : M string :=
  if py.utf8_valid b then ret b else raise UnicodeDecodeError.

(** ** The packaged command, [src/frida_push/command.py] *)

Module command.

(** The result of [parser.parse_args()]. *)
Record options := {
  device_name : option string;
  force : bool
}.

Section run.

Variable env : host.

Definition ADB_PATH : string := "adb".
Definition DOWNLOAD_PATH : string := path.expanduser (home env) "~/.frida-push".

(** One dictionary entry per token [key:value] of [d[2:]]; a token
    without a colon has no [[1]]. *)
Fixpoint properties (tokens : list string) (acc : gmap string string)
  : result (gmap string string) :=
  match tokens with
  | [] => Return acc
  | t :: ts =>
      match text.split_on ":" "" t with
      | k :: v :: _ => properties ts (<[k := v]> acc)
      | _ => Raise IndexError
      end
  end.

(** The outer dictionary comprehension over the set of tuples.  Python
    leaves the iteration order of a set open; the tuples are taken in the
    order of their first line. *)
Fixpoint device_dict (tuples : list (list string))
    (acc : gmap string (gmap string string))
  : result (gmap string (gmap string string)) :=
  match tuples with
  | [] => Return acc
  | d :: ds =>
      match d with
      | [] => Raise IndexError
      | d0 :: _ =>
          match properties (drop 2 d) ∅ with
          | Return props => device_dict ds (<[d0 := props]> acc)
          | Raise e => Raise e
          end
      end
  end.

(** The loop that fills the set [devices]. *)
Fixpoint device_set (lines : list string) : list (list string) :=
  match lines with
  | [] => []
  | device :: rest =>
      let device := text.strip device in
      if bool_decide (device ≠ "") then
        text.split_space 0 "" device :: device_set rest
      else device_set rest
  end.

Definition list_devices : M (gmap string (gmap string string)) :=
  cmd <- lift (str.format "{} devices -l | tail -n+2" [ADB_PATH]);;
  raw <- subprocess.check_output env cmd;;
  decoded <- decode (py.bytes_strip raw);;
  let output := text.split_on "010" "" (text.remove text.cr decoded) in
  let devices := remove_dups (device_set output) in
  lift (device_dict devices ∅).

Definition get_device_arch (transport_id : string) : M (option py.value) :=
  let arch := None in
  getprop_cmd <- lift (str.format "{} -t {} shell getprop ro.product.cpu.abi"
                         [ADB_PATH; transport_id]);;
  let getprop_archs :=
    [py.Str "armeabi"; py.Str "armeabi-v7a"; py.Str "arm64-v8a";
     py.Str "x86"; py.Str "x86_64"] in
  raw <- subprocess.check_output env getprop_cmd;;
  decoded <- decode (py.bytes_strip (py.bytes_lower raw));;
  let output := py.Str decoded in
  ret (if py.contains output getprop_archs then
         if py.contains output [py.Str "armeabi"; py.Str "armeabi-v7a"] then
           Some (py.Str "arm")
         else if py.value_eqb output (py.Str "arm64-v8a") then
           Some (py.Str "arm64")
         else Some output
       else arch).

Definition prepare_download_url (arch : py.value) : result string :=
  let base_url :=
    "https://github.com/frida/frida/releases/download/{}/frida-server-{}-android-{}.xz" in
  str.format base_url [FRIDA_VERSION env; FRIDA_VERSION env; py.to_text arch].

Definition download_and_extract (url fname : string) (force_download : bool)
  : M bool :=
  let data := None in
  try_pass (os.makedirs DOWNLOAD_PATH);;;
  let fname := path.join DOWNLOAD_PATH fname in
  cached <- os.path_isfile fname;;
  if cached && negb force_download then
    log INFO ("Using " +:+ path.basename fname +:+ " from downloaded cache");;;
    ret true
  else
    log WARNING ("Downloading: " +:+ url);;;
    req <- requests_get env url;;
    data <- (if status_code req =? 200 then
               let archive_name := fname +:+ ".xz" in
               os.open_wb archive_name;;;
               os.write_all archive_name (content req);;;
               data <- lzma_read env archive_name;;
               os.unlink archive_name;;;
               ret (Some data)
             else
               log ERROR ("ERROR: downloading frida-server. Got HTTP status code "
                          +:+ text.of_Z (status_code req) +:+ " from server.");;;
               ret data);;
    match data with
    | Some (String _ _ as d) =>
        log INFO ("Writing file as: " +:+ fname);;;
        os.open_wb fname;;;
        os.write fname d;;;
        ret true
    | _ => ret false
    end.

Definition push_cmd (fname transport_id : string) : list string :=
  [ADB_PATH; "-t"; transport_id; "push"; fname; "/data/local/tmp/frida-server"].
Definition chmod_cmd (transport_id : string) : list string :=
  [ADB_PATH; "-t"; transport_id; "shell"; "chmod 0755 /data/local/tmp/frida-server"].
Definition kill_cmd (transport_id : string) : list string :=
  [ADB_PATH; "-t"; transport_id; "shell"; "su 0 killall frida-server"].
Definition execute_cmd (transport_id : string) : list string :=
  [ADB_PATH; "-t"; transport_id; "shell"; "su 0 '/data/local/tmp/frida-server'"].

Definition push_and_execute (fname transport_id : string) : M unit :=
  let fname := path.join DOWNLOAD_PATH fname in
  res <- subprocess.Popen env (push_cmd fname transport_id);;
  _ <- subprocess.wait res;;
  if negb (returncode res =? 0) then
    out <- decode (stdout res);;
    err <- decode (stderr res);;
    log ERROR ("Could not push the binary to device. " +:+ out +:+ err)
  else
    log INFO "File pushed to device successfully.";;;
    (res <- subprocess.Popen env (chmod_cmd transport_id);; subprocess.wait res);;;
    log INFO "Killing all frida-server on device.";;;
    (res <- subprocess.Popen env (kill_cmd transport_id);; subprocess.wait res);;;
    log INFO "Executing frida-server on device.";;;
    res <- subprocess.Popen env (execute_cmd transport_id);;
    ret_code <- try_or None (c <- subprocess.wait_for res 3;; ret (Some c));;
    match ret_code with
    | Some c =>
        if negb (c =? 0) then
          line <- decode (text.readline (stderr res));;
          log ERROR ("Error executing frida-server. " +:+ line)
        else ret tt
    | None => ret tt
    end.

(** The device selection of [main], from [len(devices) == 0] to the
    default name. *)
Definition select_device (ops : options)
    (devices : gmap string (gmap string string)) : M string :=
  (if bool_decide (size devices = 0%nat) then
     log ERROR "No device found. Exiting.";;; sys_exit 1
   else ret tt);;;
  log INFO ("Devices: " +:+ str.join ", " (map fst (map_to_list devices)));;;
  (match device_name ops with
   | None =>
       if negb (bool_decide (size devices = 1%nat)) then
         parser_exit 2 ("Multiple devices conected select one with -d" +:+ text.nl)
       else ret tt
   | Some name =>
       if bool_decide (devices !! name = None) then
         parser_exit 2 ("Device " +:+ name +:+ " not found" +:+ text.nl)
       else ret tt
   end);;;
  match device_name ops with
  | None =>
      match map_to_list devices with
      | (name, _) :: _ => ret name
      | [] => raise TypeError
      end
  | Some name => ret name
  end.

(** The [if arch: ... else: ...] that ends [main]. *)
Definition fetch_and_deploy (ops : options) (transport_id : string)
    (arch : option py.value) : M unit :=
  match arch with
  | Some a =>
      if py.truthy a then
        log INFO ("Found arch: " +:+ py.to_text a);;;
        url <- lift (prepare_download_url a);;
        fname <- lift (str.format "frida-server-{}-android-{}"
                         [FRIDA_VERSION env; py.to_text a]);;
        ok <- download_and_extract url fname (force ops);;
        if ok then push_and_execute fname transport_id else ret tt
      else log INFO "Could not determine device's arch. Exiting."
  | None => log INFO "Could not determine device's arch. Exiting."
  end.

(** [devices[ops.device_name]['transport_id']]. *)
Definition transport_of (devices : gmap string (gmap string string))
    (name : string) : M string :=
  match devices !! name with
  | None => raise (KeyError name)
  | Some props =>
      match props !! "transport_id" with
      | None => raise (KeyError "transport_id")
      | Some t => ret t
      end
  end.

(** [main] once a device name is settled. *)
Definition deploy_to (ops : options)
    (devices : gmap string (gmap string string)) (name : string) : M unit :=
  log INFO ("Current installed Frida version: " +:+ FRIDA_VERSION env);;;
  transport_id <- transport_of devices name;;
  arch <- get_device_arch transport_id;;
  fetch_and_deploy ops transport_id arch.

Definition main (ops : options) : M unit :=
  devices <- list_devices;;
  name <- select_device ops devices;;
  deploy_to ops devices name.

End run.

End command.

(** ** The standalone script, [src/push.py] *)

Module push.

Section run.

Variable env : host.

Definition adb_path : string := "adb".

Definition device_exists : M bool :=
  cmd <- lift (str.format ("{} devices -l | grep -v " +:+ text.dq
                           +:+ "List of devices attached" +:+ text.dq)
                 [adb_path]);;
  raw <- subprocess.check_output env cmd;;
  output <- decode (py.bytes_strip raw);;
  match output with
  | String _ _ =>
      print (text.tab +:+ "[+] Found following device:");;;
      print (text.tab +:+ output);;;
      ret true
  | EmptyString => ret false
  end.

Definition get_device_arch : M (option py.value) :=
  let arch := None in
  uname_cmd <- lift (str.format "{} shell uname -m" [adb_path]);;
  let uname_archs :=
    [py.Str "i386"; py.Str "i686"; py.Str "arm64"; py.Str "arm"; py.Str "x86_64"] in
  raw <- subprocess.check_output env uname_cmd;;
  decoded <- decode (py.bytes_strip (py.bytes_lower raw));;
  let output := py.Str decoded in
  if py.contains output uname_archs then
    if py.contains output [py.Str "i386"; py.Str "i686"] then
      ret (Some (py.Str "i386"))
    else ret (Some output)
  else
    getprop_cmd <- lift (str.format "{} shell getprop ro.product.cpu.abi" [adb_path]);;
    let getprop_archs :=
      [py.Str "armeabi"; py.Str "armeabi-v7a"; py.Str "arm64-v8a";
       py.Str "x86"; py.Str "x86_64"] in
    raw <- subprocess.check_output env getprop_cmd;;
    (* no decoding here: [output] stays a [bytes] object *)
    let output := py.Bytes (py.bytes_strip (py.bytes_lower raw)) in
    ret (if py.contains output getprop_archs then
           if py.contains output [py.Str "armeabi"; py.Str "armeabi-v7a"] then
             Some (py.Str "arm")
           else if py.value_eqb output (py.Str "arm64-v8a") then
             Some (py.Str "arm64")
           else if py.value_eqb output (py.Str "x86") then
             Some (py.Str "i386")
           else Some output
         else arch).

Definition prepare_download_url (arch : py.value) : result string :=
  let base_url :=
    "https://github.com/frida/frida/releases/download/{}/frida-server-{}-android-{}.xz" in
  str.format base_url [FRIDA_VERSION env; FRIDA_VERSION env; py.to_text arch].

Definition download_and_extract (url fname : string) : M bool :=
  let data := None in
  print (text.tab +:+ "[+] Downloading: " +:+ url);;;
  req <- requests_get env url;;
  data <- (if status_code req =? 200 then
             let archive_name := fname +:+ ".xz" in
             os.open_wb archive_name;;;
             os.write_all archive_name (content req);;;
             data <- lzma_read env archive_name;;
             ret (Some data)
           else
             print (text.tab +:+ "[-] Error downloading frida-server.");;;
             print (text.tab +:+ "[-] Got HTTP status code "
                    +:+ text.of_Z (status_code req) +:+ " from server.");;;
             ret data);;
  match data with
  | Some (String _ _ as d) =>
      print (text.tab +:+ "[+] Writing file as: " +:+ fname +:+ ".");;;
      os.open_wb fname;;;
      os.write fname d;;;
      ret true
  | _ => ret false
  end.

Definition push_cmd (fname : string) : string :=
  adb_path +:+ " push " +:+ fname +:+ " /data/local/tmp/frida-server".
Definition chmod_cmd : string :=
  adb_path +:+ " shell chmod 0755 /data/local/tmp/frida-server".
Definition execute_cmd : string :=
  adb_path +:+ " shell su 0 '/data/local/tmp/frida-server' &".
(** [ps_cmd] is this pipeline, redirected to the file frida.pid. *)
Definition ps_pipeline : string :=
  adb_path +:+ " shell 'su 0 ps' | grep frida-server | awk '{print $2}'".

Definition push_and_execute (fname : string) : M unit :=
  status_code <- os.system env (push_cmd fname);;
  if status_code =? 0 then
    print (text.tab +:+ "[+] File pushed to device successfully.");;;
    _ <- os.system env chmod_cmd;;
    print (text.tab +:+ "[+] Executing frida-server on device.");;;
    _ <- os.system env execute_cmd;;
    print (text.tab +:+ "[+] Fetching the PID of frida-server and saving it to file.");;;
    _ <- os.system_to env ps_pipeline "frida.pid";;
    ret tt
  else
    print "[-] Could not push the binary to device.".

(** The [if arch: ... else: ...] that ends [main]. *)
Definition fetch_and_deploy (arch : option py.value) : M unit :=
  match arch with
  | Some a =>
      if py.truthy a then
        print (text.tab +:+ "[+] Found arch: " +:+ py.to_text a);;;
        url <- lift (prepare_download_url a);;
        fname <- lift (str.format "frida-server-{}-android-{}"
                         [FRIDA_VERSION env; py.to_text a]);;
        ok <- download_and_extract url fname;;
        if ok then push_and_execute fname else ret tt
      else print (text.tab +:+ "[-] Could not determine device's arch. Exiting.")
  | None => print (text.tab +:+ "[-] Could not determine device's arch. Exiting.")
  end.

Definition main : M unit :=
  found <- device_exists;;
  (if negb found then print "[-] No device found. Exiting.";;; sys_exit 1
   else ret tt);;;
  print ("[*] Current installed Frida version: " +:+ FRIDA_VERSION env);;;
  print "[*] Trying to determine device's arch.";;;
  arch <- get_device_arch;;
  fetch_and_deploy arch.

End run.

End push.

(** ** Vocabulary of the specification *)

(** The static normalization table of the specification: the raw strings
    of [getprop ro.product.cpu.abi] and their canonical keys. *)
Definition normalization_table : list (string * string) :=
  [("armeabi", "arm"); ("armeabi-v7a", "arm"); ("arm64-v8a", "arm64");
   ("x86", "x86"); ("x86_64", "x86_64")].

Fixpoint table_lookup (t : list (string * string)) (raw : string) : option string :=
  match t with
  | [] => None
  | (k, v) :: t' => if bool_decide (raw = k) then Some v else table_lookup t' raw
  end.

(** The table of the standalone script for the output of [uname -m]. *)
Definition uname_table : list (string * string) :=
  [("i386", "i386"); ("i686", "i386"); ("arm64", "arm64"); ("arm", "arm");
   ("x86_64", "x86_64")].

(** Case-insensitive, white-space trimmed: what both scripts do to the
    raw output before the lookup. *)
Definition normalize (raw : string) : string :=
  py.bytes_strip (py.bytes_lower raw).

(** The URL template {base}/{version}/frida-server-{version}-android-{arch}.xz. *)
Definition release_base : string :=
  "https://github.com/frida/frida/releases/download".

Definition url_template (version arch : string) : string :=
  release_base +:+ "/" +:+ version +:+ "/frida-server-" +:+ version
  +:+ "-android-" +:+ arch +:+ ".xz".

(** The world a run reaches from [w] by the events [evs], files untouched. *)
Definition logged (w : world) (evs : list event) : world :=
  {| fs := fs w; trace := trace w ++ evs |}.

(** The world a run reaches from [w] with the file system [f] after the
    events [evs]. *)
Definition stepped (w : world) (f : gmap string node) (evs : list event) : world :=
  {| fs := f; trace := trace w ++ evs |}.

(** A child process that exits with [code] and prints [out]. *)
Definition exited (code : Z) (out : string) : proc_result :=
  {| returncode := code; stdout := out; stderr := ""; runtime := 0 |}.

Definition uname_cmd : string := "adb shell uname -m".
Definition getprop_cmd : string := "adb shell getprop ro.product.cpu.abi".
Definition list_cmd : string := "adb devices -l | tail -n+2".

Definition getprop_cmd_of (tid : string) : string :=
  "adb -t " +:+ tid +:+ " shell getprop ro.product.cpu.abi".

(** A host for concrete runs: the answers of [uname -m], of [getprop]
    and of the device listing, the exit code of the push, and the answer of
    the release host with what lzma makes of the body. *)
Definition sample_host (uname getprop listing : string) (push_code : Z)
    (status : Z) (body : list string) (plain : option string) : host :=
  {| shell := λ cmd,
       if bool_decide (cmd = uname_cmd) then exited 0 uname
       else if bool_decide (cmd = getprop_cmd ∨ cmd = getprop_cmd_of "1")
       then exited 0 getprop
       else if bool_decide (cmd = list_cmd) then exited 0 listing
       else if bool_decide (cmd = push.push_cmd "frida-server-16.1.4-android-arm64")
       then {| returncode := push_code; stdout := "";
               stderr := "adb: error: failed to copy"; runtime := 1 |}
       else exited 0 "";
     spawn := λ argv,
       match argv with
       | [_; _; _; "push"; _; _] =>
           {| returncode := push_code; stdout := "";
              stderr := "adb: error: failed to copy"; runtime := 1 |}
       | _ => {| returncode := 0; stdout := ""; stderr := ""; runtime := 10 |}
       end;
     http := λ url, Return {| status_code := status; content := body |};
     lzma_decompress := λ _, plain;
     home := "/home/u";
     FRIDA_VERSION := "16.1.4" |}.

Definition empty_world : world := {| fs := ∅; trace := [] |}.

(** A world whose cache directory exists, with one cached artifact. *)
Definition cached_world : world :=
  {| fs := <["/home/u/.frida-push/frida-server-16.1.4-android-arm64" := File "ELF"]>
             (<["/home/u/.frida-push" := Dir]>
                (<["/home/u" := Dir]> (<["/home" := Dir]> ∅)));
     trace := [] |}.

(** Two file systems with the same files (directories may differ). *)
Definition same_files (f f' : gmap string node) : Prop :=
  ∀ p d, f' !! p = Some (File d) ↔ f !! p = Some (File d).

(** Every entry has a proper name and lives in a directory. *)
Definition fs_wf (f : gmap string node) : Prop :=
  ∀ p n, f !! p = Some n →
    p ≠ "" ∧ path.all_slashes p = false
    ∧ ∀ d, os.parent p = Some d → os.lookup_path f d = Some Dir.

Definition fs_wfb (f : gmap string node) : bool :=
  forallb (λ e : string * node,
             negb (bool_decide (e.1 = "")) && negb (path.all_slashes e.1)
             && match os.parent e.1 with
                | None => true
                | Some d => bool_decide (os.lookup_path f d = Some Dir)
                end)
          (map_to_list f).

(** [open(p, "wb")] succeeds in [f]: [p] is a name, not a directory, and
    its directory exists. *)
Definition creatable (f : gmap string node) (p : string) : bool :=
  negb (bool_decide (p = ""))
  && negb (bool_decide (os.lookup_path f p = Some Dir))
  && match os.parent p with
     | None => true
     | Some d => bool_decide (os.lookup_path f d = Some Dir)
     end.

(** The world after the [try: os.makedirs(DOWNLOAD_PATH) except: pass]
    that opens [download_and_extract]. *)
Definition after_makedirs (env : host) (w : world) : world :=
  snd (try_pass (os.makedirs (command.DOWNLOAD_PATH env)) w).

(** The events that start a process. *)
Definition is_process (e : event) : bool :=
  match e with
  | EvShell _ | EvSystem _ | EvPopen _ => true
  | _ => false
  end.

(** The events that touch the local file system. *)
Definition is_file_op (e : event) : bool :=
  match e with
  | EvOpenWrite _ | EvWrite _ _ | EvUnlink _ => true
  | _ => false
  end.

(** A command that terminates frida-server on the device: a remote shell
    command with killall. *)
Definition mentions_killall (s : string) : bool :=
  bool_decide (is_Some (String.index 0 "killall" s)).

Definition is_kill (e : event) : bool :=
  match e with
  | EvSystem cmd | EvShell cmd => String.prefix "adb shell" cmd && mentions_killall cmd
  | EvPopen argv => bool_decide ("shell" ∈ argv) && existsb mentions_killall argv
  | _ => false
  end.

(** The three ways the device selection fails, in the words of the
    specification, with the exit status and the message of each. *)
Inductive selection_error :=
| NoDeviceError
| AmbiguousSelectionError
| DeviceNotFoundError (name : string).

Definition exit_status (e : selection_error) : Z :=
  match e with
  | NoDeviceError => 1
  | AmbiguousSelectionError | DeviceNotFoundError _ => 2
  end.

Definition report (e : selection_error) : event :=
  match e with
  | NoDeviceError => EvLog ERROR "No device found. Exiting."
  | AmbiguousSelectionError =>
      EvStderr ("Multiple devices conected select one with -d" +:+ text.nl)
  | DeviceNotFoundError name =>
      EvStderr ("Device " +:+ name +:+ " not found" +:+ text.nl)
  end.

(** The log line that lists the connected devices. *)
Definition devices_line (devices : gmap string (gmap string string)) : event :=
  EvLog INFO ("Devices: " +:+ str.join ", " (map fst (map_to_list devices))).

(** One connected emulator, as [adb devices -l] lists it. *)
Definition one_device_listing : string :=
  "emulator-5554          device product:sdk_gphone model:sdk transport_id:1"
  +:+ text.nl.

Definition one_device : gmap string (gmap string string) :=
  {[ "emulator-5554" :=
       <["product" := "sdk_gphone"]>
         (<["model" := "sdk"]> {[ "transport_id" := "1" ]}) ]}.

(** [os.path.isfile] and the test that makes [download_and_extract]
    return at once. *)
Definition isfile (f : gmap string node) (p : string) : bool :=
  match os.lookup_path f p with Some (File _) => true | _ => false end.

Definition cache_hit (f : gmap string node) (dest : string) (force : bool) : bool :=
  isfile f dest && negb force.

(** The body that reaches the archive: the chunks in order. *)
Definition body (resp : response) : string :=
  fold_right String.append "" (content resp).

(** The cache file name of an architecture key. *)
Definition artifact_name (version arch : string) : string :=
  "frida-server-" +:+ version +:+ "-android-" +:+ arch.

(** Between [w] and [w'] no file was written and no process was started. *)
Definition untouched (w w' : world) : Prop :=
  same_files (fs w) (fs w')
  ∧ ∃ evs, trace w' = trace w ++ evs
           ∧ Forall (λ e, is_process e = false ∧ is_file_op e = false) evs.

(** The log lines of a refused download, in the two variants. *)
Definition refused_log (url : string) (resp : response) : list event :=
  [EvLog WARNING ("Downloading: " +:+ url); EvHttpGet url;
   EvLog ERROR ("ERROR: downloading frida-server. Got HTTP status code "
                +:+ text.of_Z (status_code resp) +:+ " from server.")].

Definition refused_prints (url : string) (resp : response) : list event :=
  [EvPrint (text.tab +:+ "[+] Downloading: " +:+ url); EvHttpGet url;
   EvPrint (text.tab +:+ "[-] Error downloading frida-server.");
   EvPrint (text.tab +:+ "[-] Got HTTP status code "
            +:+ text.of_Z (status_code resp) +:+ " from server.")].

(** The events of a download that reaches the archive. *)
Definition fetch_log (url archive : string) (resp : response) : list event :=
  [EvLog WARNING ("Downloading: " +:+ url); EvHttpGet url; EvOpenWrite archive]
  ++ map (EvWrite archive) (content resp).

Definition fetch_prints (url archive : string) (resp : response) : list event :=
  [EvPrint (text.tab +:+ "[+] Downloading: " +:+ url); EvHttpGet url;
   EvOpenWrite archive]
  ++ map (EvWrite archive) (content resp).

(** The steps of the packaged deploy sequence after a successful push, up
    to the launch. *)
Definition command_deploy_steps (dest tid : string) : list event :=
  [EvPopen (command.push_cmd dest tid);
   EvLog INFO "File pushed to device successfully.";
   EvPopen (command.chmod_cmd tid);
   EvLog INFO "Killing all frida-server on device.";
   EvPopen (command.kill_cmd tid);
   EvLog INFO "Executing frida-server on device.";
   EvPopen (command.execute_cmd tid)].

(** What follows the launch: the bounded wait of three seconds, and the
    report when the server exited within it with a failure. *)
Definition launch_outcome (e : proc_result) : result unit * list event :=
  if (runtime e <=? 3) && negb (returncode e =? 0) then
    if py.utf8_valid (text.readline (stderr e)) then
      (Return tt, [EvLog ERROR ("Error executing frida-server. "
                                +:+ text.readline (stderr e))])
    else (Raise UnicodeDecodeError, [])
  else (Return tt, []).

(** The steps of the standalone deploy sequence after a successful push,
    up to the launch and the query of the process table. *)
Definition push_deploy_steps (fname : string) : list event :=
  [EvSystem (push.push_cmd fname);
   EvPrint (text.tab +:+ "[+] File pushed to device successfully.");
   EvSystem push.chmod_cmd;
   EvPrint (text.tab +:+ "[+] Executing frida-server on device.");
   EvSystem push.execute_cmd;
   EvPrint (text.tab +:+ "[+] Fetching the PID of frida-server and saving it to file.");
   EvSystem (push.ps_pipeline +:+ " > frida.pid")].

(** ** Vocabulary for the rest of the code *)

(** The character [c] occurs in [s]. *)
Fixpoint has_char (c : ascii) (s : string) : bool :=
  match s with
  | EmptyString => false
  | String d s' => bool_decide (d = c) || has_char c s'
  end.

(** A [key:value] token of a device line. *)
Definition token (kv : string * string) : string := kv.1 +:+ ":" +:+ kv.2.

(** The dictionary of a list of keys and values, later entries winning. *)
Definition dict_of (kvs : list (string * string)) (acc : gmap string string)
  : gmap string string :=
  foldl (λ m kv, <[kv.1 := kv.2]> m) acc kvs.

(** The device query of the standalone script. *)
Definition exists_cmd : string :=
  "adb devices -l | grep -v " +:+ text.dq +:+ "List of devices attached" +:+ text.dq.

(** A host given by its oracles, for concrete runs. *)
Definition scripted_host (sh : string → proc_result) (sp : list string → proc_result)
    (ht : string → result response) (lz : string → option string) : host :=
  {| shell := sh; spawn := sp; http := ht; lzma_decompress := lz;
     home := "/home/u"; FRIDA_VERSION := "16.1.4" |}.

(** A device mapping with one device that has no transport_id, as an adb
    without that column lists it. *)
Definition legacy_device : gmap string (gmap string string) :=
  {[ "emulator-5554" := {[ "product" := "sdk_gphone" ]} ]}.

(** Two connected devices. *)
Definition two_devices : gmap string (gmap string string) :=
  <["emulator-5554" := {[ "transport_id" := "1" ]}]>
    {[ "0123456789ABCDEF" := {[ "transport_id" := "2" ]} ]}.

(** The keys the two variants can return. *)
Definition command_keys : list py.value :=
  [py.Str "arm"; py.Str "arm64"; py.Str "x86"; py.Str "x86_64"].

Definition push_keys : list py.value :=
  [py.Str "i386"; py.Str "arm64"; py.Str "arm"; py.Str "x86_64"].

(** The events of [deploy_to] up to the architecture query. *)
Definition version_line (env : host) : event :=
  EvLog INFO ("Current installed Frida version: " +:+ FRIDA_VERSION env).

(** ** Architecture detection *)

#[local] Arguments py.contains : simpl never.
#[local] Arguments py.value_eqb : simpl never.
#[local] Arguments table_lookup : simpl never.

Lemma format_getprop tid :
  str.format "{} -t {} shell getprop ro.product.cpu.abi" [command.ADB_PATH; tid]
  = Return (getprop_cmd_of tid).
Proof. reflexivity. Qed.

Lemma contains_table (s : string) :
  (if py.contains (py.Str s)
        [py.Str "armeabi"; py.Str "armeabi-v7a"; py.Str "arm64-v8a";
         py.Str "x86"; py.Str "x86_64"]
   then if py.contains (py.Str s) [py.Str "armeabi"; py.Str "armeabi-v7a"]
        then Some (py.Str "arm")
        else if py.value_eqb (py.Str s) (py.Str "arm64-v8a")
             then Some (py.Str "arm64") else Some (py.Str s)
   else None)
  = py.Str <$> table_lookup normalization_table s.
Proof.
  unfold py.contains, py.value_eqb, normalization_table, table_lookup, existsb.
  repeat case_bool_decide; subst; simpl; try reflexivity; try congruence.
Qed.

(** The packaged command on an output that the query delivers: the key of
    the table for the normalized string, [None] when the table has none
    (the decoding raises on bytes that are not UTF-8). *)
Lemma command_get_device_arch_run env tid w :
  command.get_device_arch env tid w =
    let r := shell env (getprop_cmd_of tid) in
    let w1 := logged w [EvShell (getprop_cmd_of tid)] in
    if returncode r =? 0 then
      if py.utf8_valid (normalize (stdout r)) then
        (Return (py.Str <$> table_lookup normalization_table (normalize (stdout r))), w1)
      else (Raise UnicodeDecodeError, w1)
    else (Raise (CalledProcessError (getprop_cmd_of tid) (returncode r)), w1).
Proof.
  unfold command.get_device_arch. rewrite format_getprop.
  unfold bind, lift, subprocess.check_output, emit, bind, decode, ret, raise, logged; simpl.
  destruct (returncode (shell env (getprop_cmd_of tid)) =? 0); [|reflexivity].
  fold (normalize (stdout (shell env (getprop_cmd_of tid)))).
  destruct (py.utf8_valid _); [|reflexivity].
  rewrite contains_table. reflexivity.
Qed.

Lemma contains_uname_table (s : string) :
  (if py.contains (py.Str s)
        [py.Str "i386"; py.Str "i686"; py.Str "arm64"; py.Str "arm"; py.Str "x86_64"]
   then if py.contains (py.Str s) [py.Str "i386"; py.Str "i686"]
        then Some (py.Str "i386") else Some (py.Str s)
   else None)
  = py.Str <$> table_lookup uname_table s.
Proof.
  unfold py.contains, py.value_eqb, uname_table, table_lookup, existsb.
  repeat case_bool_decide; subst; simpl; try reflexivity; try congruence.
Qed.

(** The standalone script: the table of [uname -m] decides when it has the
    output; otherwise the [getprop] query is made and its output, a
    [bytes] object, equals none of the [str] literals. *)
Lemma push_get_device_arch_run env w :
  push.get_device_arch env w =
    let u := shell env uname_cmd in
    let g := shell env getprop_cmd in
    let w1 := logged w [EvShell uname_cmd] in
    let w2 := logged w [EvShell uname_cmd; EvShell getprop_cmd] in
    if returncode u =? 0 then
      if py.utf8_valid (normalize (stdout u)) then
        match table_lookup uname_table (normalize (stdout u)) with
        | Some k => (Return (Some (py.Str k)), w1)
        | None =>
            if returncode g =? 0 then (Return None, w2)
            else (Raise (CalledProcessError getprop_cmd (returncode g)), w2)
        end
      else (Raise UnicodeDecodeError, w1)
    else (Raise (CalledProcessError uname_cmd (returncode u)), w1).
Proof.
  unfold push.get_device_arch.
  change (str.format "{} shell uname -m" [push.adb_path]) with (Return uname_cmd).
  change (str.format "{} shell getprop ro.product.cpu.abi" [push.adb_path])
    with (Return getprop_cmd).
  unfold bind, lift, subprocess.check_output, emit, bind, decode, ret, raise, logged; simpl.
  destruct (returncode (shell env uname_cmd) =? 0); [|reflexivity].
  fold (normalize (stdout (shell env uname_cmd))).
  destruct (py.utf8_valid _); [|reflexivity].
  pose proof (contains_uname_table (normalize (stdout (shell env uname_cmd)))) as H.
  destruct (py.contains _ [py.Str "i386"; py.Str "i686"; _; _; _]).
  - destruct (py.contains _ [py.Str "i386"; py.Str "i686"]);
      destruct (table_lookup uname_table _); simpl in H; try discriminate;
      injection H as <-; reflexivity.
  - destruct (table_lookup uname_table _); simpl in H; [discriminate|].
    destruct (returncode (shell env getprop_cmd) =? 0); simpl;
      rewrite <- app_assoc; reflexivity.
Qed.

(** C1 (packaged command): a raw output whose normalized form is in the
    table yields the canonical key, any other decodable output yields
    [None]. *)
Lemma command_get_device_arch_table env tid w raw
  (Hquery : shell env (getprop_cmd_of tid) = exited 0 raw)
  (Hutf8 : py.utf8_valid (normalize raw) = true) :
  fst (command.get_device_arch env tid w)
  = Return (py.Str <$> table_lookup normalization_table (normalize raw)).
Proof.
  rewrite command_get_device_arch_run, Hquery. simpl. rewrite Hutf8. reflexivity.
Qed.

(** Whatever [getprop] reports, the standalone script returns [None] once
    [uname -m] is not in its own table. *)
Lemma push_getprop_never_matches env w uname raw
  (Huname : shell env uname_cmd = exited 0 uname)
  (Hutf8 : py.utf8_valid (normalize uname) = true)
  (Hmiss : table_lookup uname_table (normalize uname) = None)
  (Hquery : shell env getprop_cmd = exited 0 raw) :
  fst (push.get_device_arch env w) = Return None.
Proof.
  rewrite push_get_device_arch_run, Huname, Hquery. simpl.
  rewrite Hutf8, Hmiss. reflexivity.
Qed.

(** C1: on an arm64 device, where [uname -m] prints aarch64 and
    [getprop ro.product.cpu.abi] prints arm64-v8a, the packaged command
    returns the key arm64 of the table, and the standalone script returns
    [None]: its comparison of the undecoded [bytes] output with the [str]
    literals of the table never succeeds. *)
Theorem get_device_arch_standalone_misses_table :
  let env := sample_host ("aarch64" +:+ text.nl) ("arm64-v8a" +:+ text.nl) "" 0 200 [] None in
  table_lookup normalization_table (normalize ("arm64-v8a" +:+ text.nl)) = Some "arm64"
  ∧ fst (command.get_device_arch env "1" empty_world) = Return (Some (py.Str "arm64"))
  ∧ fst (push.get_device_arch env empty_world) = Return None.
Proof. repeat split; vm_compute; reflexivity. Qed.

(** C3, as stated, fails: on an x86 device ([uname -m] prints i686,
    [getprop] prints x86) the standalone script answers i386 and the
    packaged command answers x86. *)
Lemma detection_variants_differ :
  let env := sample_host ("i686" +:+ text.nl) ("x86" +:+ text.nl) "" 0 200 [] None in
  fst (push.get_device_arch env empty_world) = Return (Some (py.Str "i386"))
  ∧ fst (command.get_device_arch env "1" empty_world) = Return (Some (py.Str "x86"))
  ∧ fst (push.get_device_arch env empty_world)
    ≠ fst (command.get_device_arch env "1" empty_world).
Proof. repeat split; vm_compute; congruence. Qed.

(** C3, amended: with all queries answered, whenever the output of
    [uname -m] is in the standalone script's table, or the output of
    [getprop] is not in the normalization table, the two variants return
    the same key exactly when the standalone script's [uname] table and the
    packaged command's [getprop] table give the same key. *)
Theorem detection_variants_agree_where_tables_agree env tid w uname raw
  (Huname : shell env uname_cmd = exited 0 uname)
  (Hplain : shell env getprop_cmd = exited 0 raw)
  (Hquery : shell env (getprop_cmd_of tid) = exited 0 raw)
  (Hutf8u : py.utf8_valid (normalize uname) = true)
  (Hutf8g : py.utf8_valid (normalize raw) = true)
  (Hdecided : is_Some (table_lookup uname_table (normalize uname))
              ∨ table_lookup normalization_table (normalize raw) = None) :
  fst (push.get_device_arch env w) = fst (command.get_device_arch env tid w)
  ↔ table_lookup uname_table (normalize uname)
    = table_lookup normalization_table (normalize raw).
Proof.
  rewrite (command_get_device_arch_table env tid w raw Hquery Hutf8g).
  rewrite push_get_device_arch_run, Huname, Hplain. simpl. rewrite Hutf8u.
  destruct (table_lookup uname_table (normalize uname)) as [k|] eqn:Eu;
    destruct (table_lookup normalization_table (normalize raw)) as [k'|] eqn:Eg;
    simpl; split; intros H; congruence.
Qed.

Lemma detection_variants_agree_witness :
  let env := sample_host ("arm64" +:+ text.nl) ("arm64-v8a" +:+ text.nl) "" 0 200 [] None in
  fst (push.get_device_arch env empty_world)
  = fst (command.get_device_arch env "1" empty_world)
  ↔ table_lookup uname_table (normalize ("arm64" +:+ text.nl))
    = table_lookup normalization_table (normalize ("arm64-v8a" +:+ text.nl)).
Proof.
  intros env.
  apply (detection_variants_agree_where_tables_agree env "1" empty_world
           ("arm64" +:+ text.nl) ("arm64-v8a" +:+ text.nl));
    try reflexivity.
  left. vm_compute. eauto.
Defined.

(** ** The download URL *)

(** C2: the URL is the template filled with the version and the
    architecture, so it depends on nothing else; with the key arm64 it ends
    in /V/frida-server-V-android-arm64.xz for the installed version V.  Both
    variants build it the same way. *)
Theorem prepare_download_url_template env (arch : string) :
  command.prepare_download_url env (py.Str arch)
  = Return (url_template (FRIDA_VERSION env) arch)
  ∧ push.prepare_download_url env (py.Str arch)
    = Return (url_template (FRIDA_VERSION env) arch)
  ∧ command.prepare_download_url env (py.Str "arm64")
    = Return (release_base +:+ "/" +:+ FRIDA_VERSION env +:+ "/frida-server-"
              +:+ FRIDA_VERSION env +:+ "-android-arm64.xz").
Proof. repeat split; reflexivity. Qed.

(** ** The file system operations *)

Ltac unfold_m :=
  repeat progress
    (unfold bind, ret, raise, lift, emit, get_fs, put_fs, log, print,
       sys_exit, parser_exit, try_pass, try_or in *).

Lemma logged_logged w a b : logged (logged w a) b = logged w (a ++ b).
Proof. unfold logged; simpl. rewrite app_assoc. reflexivity. Qed.

Lemma logged_nil w : logged w [] = w.
Proof. destruct w. unfold logged; simpl. rewrite app_nil_r. reflexivity. Qed.

Lemma fs_wfb_sound f : fs_wfb f = true → fs_wf f.
Proof.
  unfold fs_wfb, fs_wf. intros H p n Hp.
  rewrite forallb_forall in H.
  specialize (H (p, n)). simpl in H.
  assert (Hin : In (p, n) (map_to_list f))
    by (apply list_elem_of_In, elem_of_map_to_list, Hp).
  specialize (H Hin).
  apply andb_prop in H as [H H3]. apply andb_prop in H as [H1 H2].
  apply negb_true_iff in H1, H2. apply bool_decide_eq_false in H1.
  repeat split; [exact H1 | exact H2 |].
  intros d Hd. rewrite Hd in H3. apply bool_decide_eq_true in H3. exact H3.
Qed.

Lemma same_files_refl f : same_files f f.
Proof. intros p d; reflexivity. Qed.

Lemma same_files_trans f g h : same_files f g → same_files g h → same_files f h.
Proof. intros H1 H2 p d. etrans; [apply H2 | apply H1]. Qed.

Lemma same_files_insert_dir f p :
  f !! p = None → same_files f (<[p := Dir]> f).
Proof.
  intros Hp q d. destruct (decide (p = q)) as [->|Hne].
  - rewrite lookup_insert_eq, Hp. split; discriminate.
  - rewrite lookup_insert_ne by exact Hne. reflexivity.
Qed.

Lemma lookup_path_None f p :
  os.lookup_path f p = None → p = "" ∨ f !! p = None.
Proof.
  unfold os.lookup_path. destruct p; [left; reflexivity|].
  destruct (path.all_slashes _); [discriminate | right; assumption].
Qed.

Lemma same_files_isfile f f' p :
  same_files f f' →
  match os.lookup_path f' p with Some (File _) => true | _ => false end
  = match os.lookup_path f p with Some (File _) => true | _ => false end.
Proof.
  intros H. unfold os.lookup_path. destruct p as [|c p]; [reflexivity|].
  destruct (path.all_slashes _); [reflexivity|].
  specialize (H (String c p)).
  destruct (f' !! String c p) as [[d|]|] eqn:E'.
  - rewrite (proj1 (H d) eq_refl). reflexivity.
  - destruct (f !! String c p) as [[d|]|] eqn:E; [|reflexivity..].
    pose proof (proj2 (H d) eq_refl). discriminate.
  - destruct (f !! String c p) as [[d|]|] eqn:E; [|reflexivity..].
    pose proof (proj2 (H d) eq_refl). discriminate.
Qed.

(** [mkdir] adds at most one directory, at a free name. *)
Lemma mkdir_inv p w :
  trace (snd (os.mkdir p w)) = trace w
  ∧ same_files (fs w) (fs (snd (os.mkdir p w))).
Proof.
  unfold os.mkdir, os.check_parent; unfold_m; simpl.
  destruct (os.lookup_path (fs w) p) eqn:E; simpl.
  { split; [reflexivity | apply same_files_refl]. }
  destruct p as [|c p]; simpl.
  { split; [reflexivity | apply same_files_refl]. }
  apply lookup_path_None in E as [E|E]; [discriminate|].
  destruct (os.parent (String c p)) as [d|]; simpl.
  - destruct (os.lookup_path (fs w) d) as [[?|]|]; simpl;
      (split; [reflexivity |]);
      try apply same_files_refl. apply same_files_insert_dir, E.
  - split; [reflexivity | apply same_files_insert_dir, E].
Qed.

Lemma makedirs_rec_inv fuel : ∀ name w,
  trace (snd (os.makedirs_rec fuel name w)) = trace w
  ∧ same_files (fs w) (fs (snd (os.makedirs_rec fuel name w))).
Proof.
  induction fuel as [|fuel IH]; intros name w; simpl;
    destruct (path.split name) as [head tail];
    destruct (match tail with
              | EmptyString => path.split head
              | String _ _ => (head, tail)
              end) as [head' tail'];
    unfold bind at 1; unfold bind at 1;
    unfold os.path_exists, bind, get_fs, ret; simpl;
    destruct (negb (bool_decide (head' = "")) && negb (bool_decide (tail' = ""))
              && negb (bool_decide (is_Some (os.lookup_path (fs w) head'))));
    try apply mkdir_inv.
  specialize (IH head' w).
  destruct (os.makedirs_rec fuel head' w) as [[[]|e] w1]; simpl in IH |- *.
  - destruct (bool_decide (tail' = ".")); simpl; [exact IH|].
    destruct (mkdir_inv name w1) as [Ht Hf]. destruct IH as [IHt IHf].
    split; [congruence | eapply same_files_trans; eassumption].
  - destruct e; simpl; try exact IH.
    destruct (bool_decide (tail' = ".")); simpl; [exact IH|].
    destruct (mkdir_inv name w1) as [Ht Hf]. destruct IH as [IHt IHf].
    split; [congruence | eapply same_files_trans; eassumption].
Qed.

(** The attempt to create the cache directory returns normally, writes
    no file, and leaves at most one event. *)
Lemma after_makedirs_spec env w :
  try_pass (os.makedirs (command.DOWNLOAD_PATH env)) w = (Return tt, after_makedirs env w)
  ∧ same_files (fs w) (fs (after_makedirs env w))
  ∧ (trace (after_makedirs env w) = trace w
     ∨ trace (after_makedirs env w)
       = trace w ++ [EvMakedirs (command.DOWNLOAD_PATH env)]).
Proof.
  unfold after_makedirs, try_pass, os.makedirs, bind, emit.
  pose proof (makedirs_rec_inv (String.length (command.DOWNLOAD_PATH env))
                (command.DOWNLOAD_PATH env) w) as [Ht Hf].
  destruct (os.makedirs_rec _ _ w) as [[[]|e] w1]; simpl in *.
  - split; [reflexivity|]. split; [assumption|]. right. rewrite Ht. reflexivity.
  - split; [reflexivity|]. split; [assumption|]. left. assumption.
Qed.

Lemma lookup_path_entry f p n :
  fs_wf f → f !! p = Some n → os.lookup_path f p = Some n.
Proof.
  intros Hwf Hp. destruct (Hwf p n Hp) as (Hne & Hsl & _).
  unfold os.lookup_path. destruct p; [congruence|]. rewrite Hsl. exact Hp.
Qed.

(** On an existing entry of a well-formed file system [os.makedirs]
    raises at once and changes nothing. *)
Lemma makedirs_existing fuel name n w :
  fs_wf (fs w) → fs w !! name = Some n →
  os.makedirs_rec fuel name w = (Raise (FileExistsError name), w).
Proof.
  intros Hwf Hname.
  pose proof (lookup_path_entry _ _ _ Hwf Hname) as Hl.
  destruct (Hwf name n Hname) as (_ & _ & Hpar).
  assert (Hmk : os.mkdir name w = (Raise (FileExistsError name), w)).
  { unfold os.mkdir; unfold_m. rewrite Hl. reflexivity. }
  unfold os.parent in Hpar.
  destruct fuel as [|fuel]; simpl;
    destruct (path.split name) as [head tail];
    destruct (match tail with
              | EmptyString => path.split head
              | String _ _ => (head, tail)
              end) as [head' tail'] eqn:E;
    assert (Hh : head' = match tail with
                         | EmptyString => (path.split head).1
                         | String _ _ => head
                         end)
      by (clear -E; destruct tail; simpl in *; [rewrite E; reflexivity | inversion E; reflexivity]);
    rewrite <- Hh in Hpar;
    unfold bind at 1; unfold bind at 1;
    unfold os.path_exists; unfold_m; simpl;
    (destruct head' as [|c h];
     [ simpl; exact Hmk
     | rewrite (Hpar _ eq_refl); simpl;
       rewrite andb_false_r; exact Hmk ]).
Qed.

(** ** The cache *)

(** C5: when the cache directory holds the destination file and the
    download is not forced, [download_and_extract] returns [True]; the file
    system is the one it started with and the only event of the call is the
    log line, so no request is sent. *)
Theorem download_and_extract_cache_hit env url fname w data
  (Hwf : fs_wf (fs w))
  (Hdir : fs w !! command.DOWNLOAD_PATH env = Some Dir)
  (Hfile : fs w !! path.join (command.DOWNLOAD_PATH env) fname = Some (File data)) :
  command.download_and_extract env url fname false w
  = (Return true,
     logged w [EvLog INFO ("Using "
                           +:+ path.basename (path.join (command.DOWNLOAD_PATH env) fname)
                           +:+ " from downloaded cache")]).
Proof.
  unfold command.download_and_extract.
  unfold bind at 1. unfold try_pass, os.makedirs. unfold bind at 1.
  rewrite (makedirs_existing _ _ _ _ Hwf Hdir).
  unfold bind at 1. unfold os.path_isfile at 1. unfold_m. simpl.
  rewrite (lookup_path_entry _ _ _ Hwf Hfile). simpl. reflexivity.
Qed.

Lemma cached_world_wf : fs_wf (fs cached_world).
Proof. apply fs_wfb_sound. vm_compute. reflexivity. Qed.

Lemma download_and_extract_cache_hit_witness :
  command.download_and_extract
    (sample_host "" "" "" 0 404 [] None)
    (url_template "16.1.4" "arm64") "frida-server-16.1.4-android-arm64" false
    cached_world
  = (Return true,
     logged cached_world
       [EvLog INFO "Using frida-server-16.1.4-android-arm64 from downloaded cache"]).
Proof.
  exact (download_and_extract_cache_hit (sample_host "" "" "" 0 404 [] None)
           (url_template "16.1.4" "arm64") "frida-server-16.1.4-android-arm64"
           cached_world "ELF" cached_world_wf eq_refl eq_refl).
Defined.

(** ** Device selection *)

Lemma list_devices_world env w :
  snd (command.list_devices env w) = logged w [EvShell list_cmd].
Proof.
  unfold command.list_devices.
  change (str.format "{} devices -l | tail -n+2" [command.ADB_PATH])
    with (Return list_cmd).
  unfold subprocess.check_output, decode; unfold_m; simpl.
  destruct (returncode (shell env list_cmd) =? 0); [|reflexivity].
  destruct (py.utf8_valid _); reflexivity.
Qed.

Lemma select_device_none ops devices w :
  size devices = 0%nat →
  command.select_device ops devices w
  = (Raise (SystemExit (exit_status NoDeviceError)), logged w [report NoDeviceError]).
Proof.
  intros H. unfold command.select_device; unfold_m.
  rewrite bool_decide_eq_true_2 by exact H. reflexivity.
Qed.

Lemma select_device_single ops name props w :
  command.device_name ops = None →
  command.select_device ops {[ name := props ]} w
  = (Return name, logged w [devices_line {[ name := props ]}]).
Proof.
  intros H. unfold command.select_device, devices_line; unfold_m.
  rewrite H, map_size_singleton, map_to_list_singleton. reflexivity.
Qed.

Lemma select_device_ambiguous ops devices w :
  (1 < size devices)%nat → command.device_name ops = None →
  command.select_device ops devices w
  = (Raise (SystemExit (exit_status AmbiguousSelectionError)),
     logged w [devices_line devices; report AmbiguousSelectionError]).
Proof.
  intros Hs H. unfold command.select_device, devices_line; unfold_m.
  rewrite H.
  rewrite bool_decide_eq_false_2 by lia.
  rewrite bool_decide_eq_false_2 by lia.
  simpl. rewrite <- app_assoc. reflexivity.
Qed.

Lemma select_device_missing ops devices name w :
  size devices ≠ 0%nat → command.device_name ops = Some name →
  devices !! name = None →
  command.select_device ops devices w
  = (Raise (SystemExit (exit_status (DeviceNotFoundError name))),
     logged w [devices_line devices; report (DeviceNotFoundError name)]).
Proof.
  intros Hs H Hn. unfold command.select_device, devices_line; unfold_m.
  rewrite H.
  rewrite bool_decide_eq_false_2 by exact Hs.
  rewrite bool_decide_eq_true_2 by exact Hn.
  simpl. rewrite <- app_assoc. reflexivity.
Qed.

(** C4: with the mapping that [list_devices] returns, [main] exits with
    status 1 when no device is connected, selects the only device when one
    is connected and none is named, exits with status 2 when several are
    connected and none is named, and exits with status 2 when the named
    device is not in the (non-empty) mapping.  In each failing case the run
    consists of the device listing and the messages: nothing is downloaded
    and nothing is sent to a device. *)
Theorem main_device_selection env ops w devices w1
  (Hlist : command.list_devices env w = (Return devices, w1)) :
  let exits e evs :=
    command.main env ops w
    = (Raise (SystemExit (exit_status e)), logged w (EvShell list_cmd :: evs ++ [report e]))
    ∧ exit_status e ≠ 0 in
  (size devices = 0%nat → exits NoDeviceError [])
  ∧ (∀ name props, devices = {[ name := props ]} → command.device_name ops = None →
       command.main env ops w
       = command.deploy_to env ops devices name
           (logged w [EvShell list_cmd; devices_line devices]))
  ∧ ((1 < size devices)%nat → command.device_name ops = None →
       exits AmbiguousSelectionError [devices_line devices])
  ∧ (∀ name, size devices ≠ 0%nat → command.device_name ops = Some name →
       devices !! name = None →
       exits (DeviceNotFoundError name) [devices_line devices]).
Proof.
  pose proof (list_devices_world env w) as Hw. rewrite Hlist in Hw. simpl in Hw.
  subst w1. intros exits. subst exits.
  assert (Hmain : command.main env ops w
                  = match command.select_device ops devices (logged w [EvShell list_cmd]) with
                    | (Return name, w2) => command.deploy_to env ops devices name w2
                    | (Raise e, w2) => (Raise e, w2)
                    end)
    by (unfold command.main, bind; rewrite Hlist; reflexivity).
  rewrite Hmain. clear Hmain.
  split; [|split; [|split]].
  - intros H. split; [|discriminate].
    rewrite select_device_none by exact H.
    rewrite logged_logged. reflexivity.
  - intros name props -> H. rewrite select_device_single by exact H.
    rewrite logged_logged. reflexivity.
  - intros Hs H. split; [|discriminate].
    rewrite select_device_ambiguous by assumption.
    rewrite logged_logged. reflexivity.
  - intros name Hs H Hn. split; [|discriminate].
    rewrite (select_device_missing ops devices name) by assumption.
    rewrite logged_logged. reflexivity.
Qed.

Lemma main_device_selection_witness :
  let env := sample_host "" ("arm64-v8a" +:+ text.nl) one_device_listing 0 404 [] None in
  let ops := {| command.device_name := None; command.force := false |} in
  command.main env ops empty_world
  = command.deploy_to env ops one_device "emulator-5554"
      (logged empty_world [EvShell list_cmd; devices_line one_device]).
Proof.
  intros env ops.
  assert (Hlist : command.list_devices env empty_world
                  = (Return one_device, logged empty_world [EvShell list_cmd]))
    by (vm_compute; reflexivity).
  destruct (main_device_selection env ops empty_world one_device _ Hlist)
    as (_ & Hone & _).
  exact (Hone "emulator-5554" _ eq_refl eq_refl).
Defined.

(** ** Files of the download *)

Lemma string_app_nil_r (s : string) : s +:+ "" = s.
Proof. induction s as [|c s IH]; [reflexivity|]. change (String c (s +:+ "") = String c s). congruence. Qed.

Lemma string_app_assoc (a b c : string) : (a +:+ b) +:+ c = a +:+ b +:+ c.
Proof.
  induction a as [|x a IH]; [reflexivity|].
  change (String x ((a +:+ b) +:+ c) = String x (a +:+ b +:+ c)). congruence.
Qed.

Lemma string_app_neq (s t : string) : t ≠ "" → s ≠ s +:+ t.
Proof.
  intros Ht. induction s as [|c s IH].
  - change ("" ≠ t). congruence.
  - change (String c s ≠ String c (s +:+ t)). congruence.
Qed.

Lemma creatable_lookup f p g :
  creatable f p = true → os.lookup_path g p = g !! p.
Proof.
  unfold creatable, os.lookup_path. intros H.
  apply andb_prop in H as [H _]. apply andb_prop in H as [H1 H2].
  destruct p as [|c p]; [discriminate|].
  destruct (path.all_slashes (String c p)); [|reflexivity].
  rewrite bool_decide_eq_true_2 in H2 by reflexivity. discriminate.
Qed.

Lemma open_wb_run p w :
  creatable (fs w) p = true →
  os.open_wb p w
  = (Return tt, {| fs := <[p := File ""]> (fs w); trace := trace w ++ [EvOpenWrite p] |}).
Proof.
  intros H. unfold creatable in H.
  apply andb_prop in H as [H H3]. apply andb_prop in H as [H1 H2].
  apply negb_true_iff, bool_decide_eq_false in H1, H2.
  unfold os.open_wb, os.check_parent; unfold_m; simpl.
  destruct (os.lookup_path (fs w) p) as [[d|]|] eqn:E; try congruence;
    destruct p as [|c p]; try congruence;
    destruct (os.parent (String c p)) as [dir|]; try reflexivity;
    apply bool_decide_eq_true in H3; rewrite H3; reflexivity.
Qed.

Lemma open_wb_dir p w :
  os.lookup_path (fs w) p = Some Dir →
  os.open_wb p w = (Raise (IsADirectoryError p), w).
Proof. intros H. unfold os.open_wb; unfold_m. rewrite H. reflexivity. Qed.

Lemma write_run p old data w :
  fs w !! p = Some (File old) →
  os.write p data w
  = (Return tt, {| fs := <[p := File (old +:+ data)]> (fs w);
                   trace := trace w ++ [EvWrite p data] |}).
Proof. intros H. unfold os.write; unfold_m. rewrite H. reflexivity. Qed.

Lemma bind_open_write p data w :
  creatable (fs w) p = true →
  (os.open_wb p;;; os.write p data) w
  = (Return tt,
     {| fs := <[p := File data]> (fs w);
        trace := (trace w ++ [EvOpenWrite p]) ++ [EvWrite p data] |}).
Proof.
  intros Hc. unfold bind. rewrite (open_wb_run _ _ Hc).
  rewrite (write_run p "" data) by (simpl; apply lookup_insert_eq).
  simpl. rewrite insert_insert_eq. reflexivity.
Qed.

Lemma write_all_run p chunks : ∀ old w,
  fs w !! p = Some (File old) →
  os.write_all p chunks w
  = (Return tt, {| fs := <[p := File (old +:+ fold_right String.append "" chunks)]> (fs w);
                   trace := trace w ++ map (EvWrite p) chunks |}).
Proof.
  induction chunks as [|c cs IH]; intros old w H; simpl.
  - unfold ret. rewrite string_app_nil_r, app_nil_r, insert_id by exact H.
    destruct w; reflexivity.
  - unfold bind. rewrite (write_run _ _ _ _ H).
    rewrite (IH (old +:+ c)) by (simpl; apply lookup_insert_eq).
    simpl. rewrite insert_insert_eq, string_app_assoc, <- app_assoc. reflexivity.
Qed.

Lemma open_wb_fail p w :
  creatable (fs w) p = false → ∃ e, os.open_wb p w = (Raise e, w).
Proof.
  intros H. unfold os.open_wb, os.check_parent; unfold_m.
  destruct p as [|c p]; [simpl; eauto|].
  unfold creatable in H.
  rewrite (bool_decide_eq_false_2 (String c p = "")) in H by discriminate.
  destruct (os.lookup_path (fs w) (String c p)) as [[d|]|] eqn:E; [|eauto|].
  - rewrite (bool_decide_eq_false_2 (Some (File d) = Some Dir)) in H by discriminate.
    destruct (os.parent (String c p)) as [dir|]; [|discriminate].
    simpl in H. apply bool_decide_eq_false in H.
    destruct (os.lookup_path (fs w) dir) as [[?|]|]; eauto; congruence.
  - rewrite (bool_decide_eq_false_2 (None = Some Dir)) in H by discriminate.
    destruct (os.parent (String c p)) as [dir|]; [|discriminate].
    simpl in H. apply bool_decide_eq_false in H.
    destruct (os.lookup_path (fs w) dir) as [[?|]|]; eauto; congruence.
Qed.

Lemma redirect_run file data w :
  os.redirect file data w
  = (Return tt,
     {| fs := if creatable (fs w) file then <[file := File data]> (fs w) else fs w;
        trace := trace w |}).
Proof.
  unfold os.redirect. destruct (creatable (fs w) file) eqn:Hc.
  - rewrite (bind_open_write file data w Hc). simpl. reflexivity.
  - destruct (open_wb_fail _ _ Hc) as [e He].
    unfold bind. rewrite He. destruct w; reflexivity.
Qed.

Lemma lzma_read_run env p d w :
  os.lookup_path (fs w) p = Some (File d) →
  lzma_read env p w
  = (match lzma_decompress env d with
     | Some x => Return x
     | None => Raise LZMAError
     end, w).
Proof.
  intros H. unfold lzma_read, os.read_file; unfold_m. rewrite H.
  destruct (lzma_decompress env d); reflexivity.
Qed.

Lemma unlink_run p d w :
  os.lookup_path (fs w) p = Some (File d) →
  os.unlink p w
  = (Return tt, {| fs := delete p (fs w); trace := trace w ++ [EvUnlink p] |}).
Proof. intros H. unfold os.unlink; unfold_m. rewrite H. reflexivity. Qed.

(** Writing the archive and reading it back through lzma, before the
    rest [k] of the run. *)
Lemma archive_round {B} env p chunks (k : string → M B) w :
  creatable (fs w) p = true →
  (os.open_wb p;;; os.write_all p chunks;;; data <- lzma_read env p;; k data) w
  = let w' := {| fs := <[p := File (fold_right String.append "" chunks)]> (fs w);
                 trace := trace w ++ EvOpenWrite p :: map (EvWrite p) chunks |} in
    match lzma_decompress env (fold_right String.append "" chunks) with
    | Some x => k x w'
    | None => (Raise LZMAError, w')
    end.
Proof.
  intros H. unfold bind at 1. rewrite (open_wb_run _ _ H).
  unfold bind at 1.
  rewrite (write_all_run p chunks "") by (simpl; apply lookup_insert_eq).
  simpl. rewrite insert_insert_eq.
  unfold bind at 1.
  rewrite (lzma_read_run env p (fold_right String.append "" chunks))
    by (simpl; rewrite (creatable_lookup _ _ _ H); apply lookup_insert_eq).
  rewrite <- app_assoc. simpl.
  destruct (lzma_decompress env _); reflexivity.
Qed.

Lemma creatable_after_unlink f a p :
  creatable f a = true → creatable f p = true → creatable (delete a f) p = true.
Proof.
  intros Ha Hp.
  assert (Hl : ∀ q n, os.lookup_path (delete a f) q = Some n → os.lookup_path f q = Some n).
  { intros q n. unfold os.lookup_path. destruct q as [|c q]; [discriminate|].
    destruct (path.all_slashes _); [trivial|].
    intros Hq. apply lookup_delete_Some in Hq as [_ Hq]. exact Hq. }
  unfold creatable in *.
  apply andb_prop in Hp as [Hp H3]. apply andb_prop in Hp as [H1 H2].
  rewrite H1. simpl.
  apply negb_true_iff, bool_decide_eq_false in H2.
  rewrite bool_decide_eq_false_2 by (intros Hq; apply H2, Hl, Hq). simpl.
  destruct (os.parent p) as [d|]; [|reflexivity].
  apply bool_decide_eq_true in H3. apply bool_decide_eq_true.
  unfold os.lookup_path in *. destruct d as [|c d]; [discriminate|].
  destruct (path.all_slashes (String c d)) eqn:Es; [reflexivity|].
  rewrite lookup_delete_ne; [exact H3|].
  intros ->. apply andb_prop in Ha as [Ha _]. apply andb_prop in Ha as [_ Ha].
  apply negb_true_iff, bool_decide_eq_false in Ha. apply Ha.
  unfold os.lookup_path. rewrite Es. exact H3.
Qed.

(** ** Running the monad *)

Lemma bind_run {A B} (m : M A) (k : A → M B) w a w' :
  m w = (Return a, w') → bind m k w = k a w'.
Proof. intros H. unfold bind. rewrite H. reflexivity. Qed.

Lemma bind_raise {A B} (m : M A) (k : A → M B) w e w' :
  m w = (Raise e, w') → bind m k w = (Raise e, w').
Proof. intros H. unfold bind. rewrite H. reflexivity. Qed.

Lemma bind_ret {A B} (a : A) (k : A → M B) w : bind (ret a) k w = k a w.
Proof. reflexivity. Qed.

Lemma log_run l msg w : log l msg w = (Return tt, logged w [EvLog l msg]).
Proof. reflexivity. Qed.

Lemma print_run msg w : print msg w = (Return tt, logged w [EvPrint msg]).
Proof. reflexivity. Qed.

Lemma requests_get_run env url w :
  requests_get env url w = (http env url, logged w [EvHttpGet url]).
Proof. reflexivity. Qed.

Lemma isfile_run p w : os.path_isfile p w = (Return (isfile (fs w) p), w).
Proof. reflexivity. Qed.

Ltac norm_trace := repeat progress (simpl; rewrite <- ?app_assoc).

Ltac tidy :=
  unfold logged, stepped; simpl; repeat rewrite <- app_assoc; simpl;
  try reflexivity.

(** ** The download *)

Section download.

Variable env : host.
Variables url fname : string.

#[local] Abbreviation dest := (path.join (command.DOWNLOAD_PATH env) fname).
#[local] Abbreviation archive := (path.join (command.DOWNLOAD_PATH env) fname +:+ ".xz").

(** The packaged command up to the answer of the release host. *)
Lemma command_download_request force w :
  cache_hit (fs w) dest force = false →
  command.download_and_extract env url fname force w
  = match http env url with
    | Return req =>
        (data <- (if status_code req =? 200 then
                    os.open_wb archive;;;
                    os.write_all archive (content req);;;
                    data <- lzma_read env archive;;
                    os.unlink archive;;;
                    ret (Some data)
                  else
                    log ERROR ("ERROR: downloading frida-server. Got HTTP status code "
                               +:+ text.of_Z (status_code req) +:+ " from server.");;;
                    ret None);;
         match data with
         | Some (String _ _ as d) =>
             log INFO ("Writing file as: " +:+ dest);;;
             os.open_wb dest;;;
             os.write dest d;;;
             ret true
         | _ => ret false
         end)
          (logged (after_makedirs env w) [EvLog WARNING ("Downloading: " +:+ url); EvHttpGet url])
    | Raise e =>
        (Raise e,
         logged (after_makedirs env w) [EvLog WARNING ("Downloading: " +:+ url); EvHttpGet url])
    end.
Proof.
  intros Hmiss. unfold command.download_and_extract.
  destruct (after_makedirs_spec env w) as (Hmk & Hfiles & _).
  rewrite (bind_run _ _ _ _ _ Hmk).
  rewrite (bind_run _ _ _ _ _ (isfile_run _ _)).
  unfold cache_hit, isfile in Hmiss.
  unfold isfile. rewrite (same_files_isfile _ _ dest Hfiles), Hmiss.
  rewrite (bind_run _ _ _ _ _ (log_run _ _ _)).
  unfold bind at 1. rewrite requests_get_run, logged_logged. simpl.
  destruct (http env url); reflexivity.
Qed.

(** Any status but 200: the error is logged and the result is [False]. *)
Lemma command_download_refused force w resp :
  cache_hit (fs w) dest force = false →
  http env url = Return resp → status_code resp ≠ 200 →
  command.download_and_extract env url fname force w
  = (Return false,
     logged (after_makedirs env w)
       [EvLog WARNING ("Downloading: " +:+ url); EvHttpGet url;
        EvLog ERROR ("ERROR: downloading frida-server. Got HTTP status code "
                     +:+ text.of_Z (status_code resp) +:+ " from server.")]).
Proof.
  intros Hmiss Hhttp Hstatus.
  rewrite command_download_request by exact Hmiss. rewrite Hhttp.
  apply Z.eqb_neq in Hstatus. rewrite Hstatus.
  unfold bind, log, emit, ret. tidy.
Qed.

(** Status 200 and a body that lzma accepts: the archive is written, read
    back, and removed before the decompressed bytes are looked at. *)
Lemma command_download_fetched force w resp data :
  cache_hit (fs w) dest force = false →
  http env url = Return resp → status_code resp = 200 →
  creatable (fs (after_makedirs env w)) archive = true →
  lzma_decompress env (body resp) = Some data →
  command.download_and_extract env url fname force w
  = match data with
    | String _ _ =>
        (log INFO ("Writing file as: " +:+ dest);;;
         os.open_wb dest;;; os.write dest data;;; ret true)
    | EmptyString => ret false
    end
      (stepped (after_makedirs env w) (delete archive (fs (after_makedirs env w)))
         ([EvLog WARNING ("Downloading: " +:+ url); EvHttpGet url; EvOpenWrite archive]
          ++ map (EvWrite archive) (content resp) ++ [EvUnlink archive])).
Proof.
  intros Hmiss Hhttp Hstatus Hcre Hlzma.
  rewrite command_download_request by exact Hmiss. rewrite Hhttp, Hstatus. simpl.
  unfold bind at 1.
  rewrite (archive_round env archive (content resp)) by exact Hcre.
  fold (body resp). rewrite Hlzma. simpl.
  unfold bind at 1.
  erewrite unlink_run
    by (simpl; rewrite (creatable_lookup _ _ _ Hcre); apply lookup_insert_eq).
  simpl. rewrite delete_insert_eq.
  unfold ret at 1. unfold stepped.
  repeat rewrite <- app_assoc. simpl.
  destruct data; reflexivity.
Qed.

(** The standalone script up to the answer of the release host. *)
Lemma push_download_request w :
  push.download_and_extract env url fname w
  = match http env url with
    | Return req =>
        (data <- (if status_code req =? 200 then
                    os.open_wb (fname +:+ ".xz");;;
                    os.write_all (fname +:+ ".xz") (content req);;;
                    data <- lzma_read env (fname +:+ ".xz");;
                    ret (Some data)
                  else
                    print (text.tab +:+ "[-] Error downloading frida-server.");;;
                    print (text.tab +:+ "[-] Got HTTP status code "
                           +:+ text.of_Z (status_code req) +:+ " from server.");;;
                    ret None);;
         match data with
         | Some (String _ _ as d) =>
             print (text.tab +:+ "[+] Writing file as: " +:+ fname +:+ ".");;;
             os.open_wb fname;;;
             os.write fname d;;;
             ret true
         | _ => ret false
         end)
          (logged w [EvPrint (text.tab +:+ "[+] Downloading: " +:+ url); EvHttpGet url])
    | Raise e =>
        (Raise e, logged w [EvPrint (text.tab +:+ "[+] Downloading: " +:+ url); EvHttpGet url])
    end.
Proof.
  unfold push.download_and_extract.
  rewrite (bind_run _ _ _ _ _ (print_run _ _)).
  unfold bind at 1. rewrite requests_get_run, logged_logged. simpl.
  destruct (http env url); reflexivity.
Qed.

Lemma push_download_refused w resp :
  http env url = Return resp → status_code resp ≠ 200 →
  push.download_and_extract env url fname w
  = (Return false,
     logged w
       [EvPrint (text.tab +:+ "[+] Downloading: " +:+ url); EvHttpGet url;
        EvPrint (text.tab +:+ "[-] Error downloading frida-server.");
        EvPrint (text.tab +:+ "[-] Got HTTP status code "
                 +:+ text.of_Z (status_code resp) +:+ " from server.")]).
Proof.
  intros Hhttp Hstatus. rewrite push_download_request, Hhttp.
  apply Z.eqb_neq in Hstatus. rewrite Hstatus.
  unfold bind, print, emit, ret. tidy.
Qed.

Lemma push_download_fetched w resp data :
  http env url = Return resp → status_code resp = 200 →
  creatable (fs w) (fname +:+ ".xz") = true →
  lzma_decompress env (body resp) = Some data →
  push.download_and_extract env url fname w
  = match data with
    | String _ _ =>
        (print (text.tab +:+ "[+] Writing file as: " +:+ fname +:+ ".");;;
         os.open_wb fname;;; os.write fname data;;; ret true)
    | EmptyString => ret false
    end
      (stepped w (<[fname +:+ ".xz" := File (body resp)]> (fs w))
         ([EvPrint (text.tab +:+ "[+] Downloading: " +:+ url); EvHttpGet url;
           EvOpenWrite (fname +:+ ".xz")]
          ++ map (EvWrite (fname +:+ ".xz")) (content resp))).
Proof.
  intros Hhttp Hstatus Hcre Hlzma.
  rewrite push_download_request, Hhttp, Hstatus. simpl.
  unfold bind at 1.
  rewrite (archive_round env (fname +:+ ".xz") (content resp)) by exact Hcre.
  fold (body resp). rewrite Hlzma. simpl.
  unfold ret at 1. unfold stepped. simpl.
  repeat rewrite <- app_assoc. simpl.
  destruct data; reflexivity.
Qed.

End download.

Lemma creatable_after_write f a d p :
  creatable f a = true → creatable f p = true → p ≠ a →
  creatable (<[a := File d]> f) p = true.
Proof.
  intros Ha Hp Hne.
  pose proof (creatable_lookup _ _ f Ha) as Hla.
  unfold creatable in *.
  apply andb_prop in Hp as [Hp H3]. apply andb_prop in Hp as [H1 H2].
  rewrite H1. simpl.
  apply negb_true_iff, bool_decide_eq_false in H2.
  assert (Hl : ∀ q, os.lookup_path (<[a := File d]> f) q = Some Dir
                    ↔ os.lookup_path f q = Some Dir).
  { intros q. unfold os.lookup_path. destruct q as [|c q]; [reflexivity|].
    destruct (path.all_slashes _); [reflexivity|].
    destruct (decide (a = String c q)) as [->|Hq].
    - rewrite lookup_insert_eq.
      apply andb_prop in Ha as [Ha _]. apply andb_prop in Ha as [_ Ha].
      apply negb_true_iff, bool_decide_eq_false in Ha. rewrite Hla in Ha.
      split; [discriminate | intros Hd; contradiction].
    - rewrite lookup_insert_ne by exact Hq. reflexivity. }
  rewrite bool_decide_eq_false_2 by (rewrite Hl; exact H2). simpl.
  destruct (os.parent p) as [dir|]; [|reflexivity].
  apply bool_decide_eq_true in H3. apply bool_decide_eq_true, Hl, H3.
Qed.

Lemma untouched_refl w : untouched w w.
Proof.
  split; [apply same_files_refl|]. exists []. rewrite app_nil_r. split; [reflexivity | constructor].
Qed.

Lemma untouched_logged w w1 evs :
  untouched w w1 →
  Forall (λ e, is_process e = false ∧ is_file_op e = false) evs →
  untouched w (logged w1 evs).
Proof.
  intros [Hf (evs1 & Ht & Hq)] Hevs. split; [exact Hf|].
  exists (evs1 ++ evs). simpl. rewrite Ht, app_assoc. split; [reflexivity|].
  apply Forall_app; split; assumption.
Qed.

Lemma untouched_after_makedirs env w : untouched w (after_makedirs env w).
Proof.
  destruct (after_makedirs_spec env w) as (_ & Hf & [Ht|Ht]); split; try exact Hf.
  - exists []. rewrite app_nil_r. split; [exact Ht | constructor].
  - eexists. split; [exact Ht|]. repeat constructor.
Qed.

Lemma command_url env (arch : string) :
  command.prepare_download_url env (py.Str arch)
  = Return (url_template (FRIDA_VERSION env) arch).
Proof. reflexivity. Qed.

Lemma push_url env (arch : string) :
  push.prepare_download_url env (py.Str arch)
  = Return (url_template (FRIDA_VERSION env) arch).
Proof. reflexivity. Qed.

Lemma artifact_format (version arch : string) :
  str.format "frida-server-{}-android-{}" [version; arch]
  = Return (artifact_name version arch).
Proof.
  change (Return ("frida-server-" +:+ version +:+ "-android-" +:+ arch +:+ "")
          = Return (artifact_name version arch)).
  rewrite string_app_nil_r. reflexivity.
Qed.

Lemma command_fetch_and_deploy_run env ops tid (arch : string) w :
  arch ≠ "" →
  command.fetch_and_deploy env ops tid (Some (py.Str arch)) w
  = (ok <- command.download_and_extract env (url_template (FRIDA_VERSION env) arch)
             (artifact_name (FRIDA_VERSION env) arch) (command.force ops);;
     if ok then command.push_and_execute env (artifact_name (FRIDA_VERSION env) arch) tid
     else ret tt)
      (logged w [EvLog INFO ("Found arch: " +:+ arch)]).
Proof.
  intros Ha. unfold command.fetch_and_deploy.
  destruct arch as [|c arch]; [congruence|].
  cbn [py.truthy py.to_text].
  rewrite (bind_run _ _ _ _ _ (log_run _ _ _)).
  rewrite command_url, artifact_format. reflexivity.
Qed.

Lemma push_fetch_and_deploy_run env (arch : string) w :
  arch ≠ "" →
  push.fetch_and_deploy env (Some (py.Str arch)) w
  = (ok <- push.download_and_extract env (url_template (FRIDA_VERSION env) arch)
             (artifact_name (FRIDA_VERSION env) arch);;
     if ok then push.push_and_execute env (artifact_name (FRIDA_VERSION env) arch)
     else ret tt)
      (logged w [EvPrint (text.tab +:+ "[+] Found arch: " +:+ arch)]).
Proof.
  intros Ha. unfold push.fetch_and_deploy.
  destruct arch as [|c arch]; [congruence|].
  cbn [py.truthy py.to_text].
  rewrite (bind_run _ _ _ _ _ (print_run _ _)).
  rewrite push_url, artifact_format. reflexivity.
Qed.

(** C6: when the release host answers with a status other than 200,
    [download_and_extract] logs the error and returns [False] in both
    variants; between the call and its return no file is written and no
    process is started.  The caller, with the URL and the file name it
    builds for the architecture, then returns without the push, again with
    no file written and no process started. *)
Theorem download_refused env url fname resp
  (Hhttp : http env url = Return resp)
  (Hstatus : status_code resp ≠ 200) :
  (∀ force w,
     cache_hit (fs w) (path.join (command.DOWNLOAD_PATH env) fname) force = false →
     command.download_and_extract env url fname force w
     = (Return false, logged (after_makedirs env w) (refused_log url resp))
     ∧ untouched w (logged (after_makedirs env w) (refused_log url resp)))
  ∧ (∀ w,
       push.download_and_extract env url fname w
       = (Return false, logged w (refused_prints url resp))
       ∧ untouched w (logged w (refused_prints url resp)))
  ∧ (∀ ops tid arch w,
       arch ≠ "" → url = url_template (FRIDA_VERSION env) arch →
       fname = artifact_name (FRIDA_VERSION env) arch →
       cache_hit (fs w) (path.join (command.DOWNLOAD_PATH env) fname)
         (command.force ops) = false →
       ∃ w', command.fetch_and_deploy env ops tid (Some (py.Str arch)) w = (Return tt, w')
             ∧ untouched w w')
  ∧ (∀ arch w,
       arch ≠ "" → url = url_template (FRIDA_VERSION env) arch →
       fname = artifact_name (FRIDA_VERSION env) arch →
       ∃ w', push.fetch_and_deploy env (Some (py.Str arch)) w = (Return tt, w')
             ∧ untouched w w').
Proof.
  assert (Hq1 : Forall (λ e, is_process e = false ∧ is_file_op e = false)
                  (refused_log url resp)) by (repeat constructor).
  assert (Hq2 : Forall (λ e, is_process e = false ∧ is_file_op e = false)
                  (refused_prints url resp)) by (repeat constructor).
  split; [|split; [|split]].
  - intros force w Hmiss. split.
    + apply command_download_refused; assumption.
    + apply untouched_logged; [apply untouched_after_makedirs | exact Hq1].
  - intros w. split.
    + apply push_download_refused; assumption.
    + apply untouched_logged; [apply untouched_refl | exact Hq2].
  - intros ops tid arch w Ha -> -> Hmiss.
    rewrite command_fetch_and_deploy_run by exact Ha.
    eexists. split.
    + erewrite bind_run
        by (apply command_download_refused; [exact Hmiss | exact Hhttp | exact Hstatus]).
      reflexivity.
    + apply untouched_logged; [|exact Hq1].
      destruct (untouched_after_makedirs env
                  (logged w [EvLog INFO ("Found arch: " +:+ arch)])) as [Hf (evs & Ht & Hevs)].
      split; [exact Hf|]. exists (EvLog INFO ("Found arch: " +:+ arch) :: evs).
      rewrite Ht. simpl. rewrite <- app_assoc. split; [reflexivity|].
      constructor; [split; reflexivity | exact Hevs].
  - intros arch w Ha -> ->.
    rewrite push_fetch_and_deploy_run by exact Ha.
    eexists. split.
    + erewrite bind_run by (apply push_download_refused; [exact Hhttp | exact Hstatus]).
      reflexivity.
    + rewrite logged_logged. apply untouched_logged; [apply untouched_refl|].
      constructor; [split; reflexivity | exact Hq2].
Qed.

Lemma download_refused_witness :
  let env := sample_host "" "" "" 0 404 [] None in
  let url := url_template "16.1.4" "arm64" in
  let resp := {| status_code := 404; content := [] |} in
  command.download_and_extract env url "frida-server-16.1.4-android-arm64" false empty_world
  = (Return false, logged (after_makedirs env empty_world) (refused_log url resp))
  ∧ push.download_and_extract env url "frida-server-16.1.4-android-arm64" empty_world
    = (Return false, logged empty_world (refused_prints url resp)).
Proof.
  intros env url resp.
  assert (Hstatus : status_code resp ≠ 200) by (simpl; lia).
  destruct (download_refused env url "frida-server-16.1.4-android-arm64" resp
              eq_refl Hstatus) as (Hc & Hp & _).
  split; [apply (Hc false empty_world); reflexivity | apply (Hp empty_world)].
Defined.

(** ** A successful download *)

(** C8, as stated, fails in three ways.  The standalone script leaves the
    downloaded archive where it wrote it; the packaged command writes
    nothing to the destination when the decompressed content is empty; and
    when it does write the destination, it has removed the archive
    before, not after. *)
Lemma archive_not_always_removed :
  let fname := "frida-server-16.1.4-android-arm64" in
  let url := url_template "16.1.4" "arm64" in
  (let env := sample_host "" "" "" 0 200 ["XZ"] (Some "ELF") in
   let r := push.download_and_extract env url fname empty_world in
   fst r = Return true
   ∧ fs (snd r) !! (fname +:+ ".xz") = Some (File "XZ"))
  ∧ (let env := sample_host "" "" "" 0 200 ["XZ"] (Some "") in
     let r := command.download_and_extract env url fname true cached_world in
     let dest := path.join (command.DOWNLOAD_PATH env) fname in
     fst r = Return false
     ∧ fs (snd r) !! dest = fs cached_world !! dest
     ∧ ¬ In (EvOpenWrite dest) (trace (snd r)))
  ∧ (let env := sample_host "" "" "" 0 200 ["XZ"] (Some "ELF") in
     let r := command.download_and_extract env url fname true cached_world in
     let dest := path.join (command.DOWNLOAD_PATH env) fname in
     trace (snd r)
     = [EvLog WARNING ("Downloading: " +:+ url); EvHttpGet url;
        EvOpenWrite (dest +:+ ".xz"); EvWrite (dest +:+ ".xz") "XZ";
        EvUnlink (dest +:+ ".xz");
        EvLog INFO ("Writing file as: " +:+ dest);
        EvOpenWrite dest; EvWrite dest "ELF"]).
Proof.
  split; [|split].
  - vm_compute. split; reflexivity.
  - vm_compute. split; [reflexivity|]. split; [reflexivity|].
    intros H. repeat (destruct H as [H|H]; [discriminate|]). exact H.
  - vm_compute. reflexivity.
Qed.

(** C8, amended: after status 200 and a decompression that yields
    non-empty bytes, with the archive and the destination creatable, the
    packaged command removes the archive, then writes the bytes to the
    destination and returns [True]: in the end the archive does not exist
    and the destination holds the bytes.  The standalone script writes the
    destination and returns [True] as well, and keeps the archive. *)
Theorem download_fetched env url fname resp data
  (Hhttp : http env url = Return resp)
  (Hstatus : status_code resp = 200)
  (Hlzma : lzma_decompress env (body resp) = Some data)
  (Hdata : data ≠ "") :
  (∀ force w,
     let dest := path.join (command.DOWNLOAD_PATH env) fname in
     let archive := dest +:+ ".xz" in
     let w1 := after_makedirs env w in
     let w' := stepped w1 (<[dest := File data]> (delete archive (fs w1)))
                 (fetch_log url archive resp
                  ++ [EvUnlink archive; EvLog INFO ("Writing file as: " +:+ dest);
                      EvOpenWrite dest; EvWrite dest data]) in
     cache_hit (fs w) dest force = false →
     creatable (fs w1) archive = true → creatable (fs w1) dest = true →
     command.download_and_extract env url fname force w = (Return true, w')
     ∧ fs w' !! archive = None
     ∧ fs w' !! dest = Some (File data))
  ∧ (∀ w,
       let archive := fname +:+ ".xz" in
       let w' := stepped w (<[fname := File data]> (<[archive := File (body resp)]> (fs w)))
                   (fetch_prints url archive resp
                    ++ [EvPrint (text.tab +:+ "[+] Writing file as: " +:+ fname +:+ ".");
                        EvOpenWrite fname; EvWrite fname data]) in
       creatable (fs w) archive = true → creatable (fs w) fname = true →
       push.download_and_extract env url fname w = (Return true, w')
       ∧ fs w' !! archive = Some (File (body resp))
       ∧ fs w' !! fname = Some (File data)).
Proof.
  split.
  - intros force w dest archive w1 w' Hmiss Hca Hcd.
    assert (Hne : dest ≠ archive) by (apply string_app_neq; discriminate).
    split; [|split].
    + rewrite (command_download_fetched env url fname force w resp data)
        by assumption.
      destruct data as [|c data]; [congruence|].
      rewrite (bind_run _ _ _ _ _ (log_run _ _ _)).
      erewrite bind_run
        by (apply open_wb_run; simpl; apply creatable_after_unlink; assumption).
      erewrite bind_run by (apply write_run; simpl; apply lookup_insert_eq).
      unfold ret, w', stepped, fetch_log. simpl.
      rewrite insert_insert_eq. norm_trace. reflexivity.
    + simpl. rewrite lookup_insert_ne by exact Hne. apply lookup_delete_eq.
    + simpl. apply lookup_insert_eq.
  - intros w archive w' Hca Hcd.
    assert (Hne : fname ≠ archive) by (apply string_app_neq; discriminate).
    split; [|split].
    + rewrite (push_download_fetched env url fname w resp data) by assumption.
      destruct data as [|c data]; [congruence|].
      rewrite (bind_run _ _ _ _ _ (print_run _ _)).
      erewrite bind_run
        by (apply open_wb_run; simpl; apply creatable_after_write; assumption).
      erewrite bind_run by (apply write_run; simpl; apply lookup_insert_eq).
      unfold ret, w', stepped, fetch_prints. simpl.
      rewrite insert_insert_eq. norm_trace. reflexivity.
    + simpl. rewrite lookup_insert_ne by exact Hne. apply lookup_insert_eq.
    + simpl. apply lookup_insert_eq.
Qed.

Lemma download_fetched_witness :
  let env := sample_host "" "" "" 0 200 ["X"; "Z"] (Some "ELF") in
  let url := url_template "16.1.4" "arm64" in
  let fname := "frida-server-16.1.4-android-arm64" in
  let dest := path.join (command.DOWNLOAD_PATH env) fname in
  fst (command.download_and_extract env url fname true cached_world) = Return true
  ∧ fs (snd (command.download_and_extract env url fname true cached_world))
      !! (dest +:+ ".xz") = None
  ∧ fst (push.download_and_extract env url fname empty_world) = Return true
  ∧ fs (snd (push.download_and_extract env url fname empty_world))
      !! (fname +:+ ".xz") = Some (File "XZ").
Proof.
  intros env url fname dest.
  assert (Hdata : "ELF" ≠ "") by discriminate.
  destruct (download_fetched env url fname {| status_code := 200; content := ["X"; "Z"] |}
              "ELF" eq_refl eq_refl eq_refl Hdata) as [Hc Hp].
  destruct (Hc true cached_world) as (Hrun & Harch & _);
    [vm_compute; reflexivity..|].
  destruct (Hp empty_world) as (Hrun' & Harch' & _);
    [vm_compute; reflexivity..|].
  fold dest in Harch. rewrite Hrun, Hrun'.
  split; [reflexivity|]. split; [exact Harch|]. split; [reflexivity | exact Harch'].
Defined.

(** C10: after status 200 and a decompression that yields no bytes,
    [download_and_extract] returns [False] in both variants and the
    destination is neither opened nor changed. *)
Theorem download_empty env url fname resp
  (Hhttp : http env url = Return resp)
  (Hstatus : status_code resp = 200)
  (Hlzma : lzma_decompress env (body resp) = Some "") :
  (∀ force w,
     let dest := path.join (command.DOWNLOAD_PATH env) fname in
     let archive := dest +:+ ".xz" in
     let w1 := after_makedirs env w in
     let w' := stepped w1 (delete archive (fs w1))
                 (fetch_log url archive resp ++ [EvUnlink archive]) in
     cache_hit (fs w) dest force = false →
     creatable (fs w1) archive = true →
     command.download_and_extract env url fname force w = (Return false, w')
     ∧ fs w' !! dest = fs w1 !! dest
     ∧ ¬ In (EvOpenWrite dest) (fetch_log url archive resp ++ [EvUnlink archive]))
  ∧ (∀ w,
       let archive := fname +:+ ".xz" in
       let w' := stepped w (<[archive := File (body resp)]> (fs w))
                   (fetch_prints url archive resp) in
       creatable (fs w) archive = true →
       push.download_and_extract env url fname w = (Return false, w')
       ∧ fs w' !! fname = fs w !! fname
       ∧ ¬ In (EvOpenWrite fname) (fetch_prints url archive resp)).
Proof.
  assert (Hwr : ∀ (p a : string) l, p ≠ a → ¬ In (EvOpenWrite p) (map (EvWrite a) l)).
  { intros p a l _ Hin. apply in_map_iff in Hin as (x & Hx & _). discriminate. }
  split.
  - intros force w dest archive w1 w' Hmiss Hca.
    assert (Hne : dest ≠ archive) by (apply string_app_neq; discriminate).
    split; [|split].
    + rewrite (command_download_fetched env url fname force w resp "") by assumption.
      unfold ret, w', stepped, fetch_log. norm_trace. reflexivity.
    + simpl. apply lookup_delete_ne. congruence.
    + unfold fetch_log. rewrite in_app_iff. simpl.
      intros [[H|[H|[H|H]]]|[H|H]]; try discriminate; try contradiction.
      * injection H as H. congruence.
      * exact (Hwr _ _ _ Hne H).
  - intros w archive w' Hca.
    assert (Hne : fname ≠ archive) by (apply string_app_neq; discriminate).
    split; [|split].
    + rewrite (push_download_fetched env url fname w resp "") by assumption.
      reflexivity.
    + simpl. apply lookup_insert_ne. congruence.
    + unfold fetch_prints. simpl.
      intros [H|[H|[H|H]]]; try discriminate.
      * injection H as H. congruence.
      * exact (Hwr _ _ _ Hne H).
Qed.

Lemma download_empty_witness :
  let env := sample_host "" "" "" 0 200 ["XZ"] (Some "") in
  let url := url_template "16.1.4" "arm64" in
  let fname := "frida-server-16.1.4-android-arm64" in
  fst (command.download_and_extract env url fname true cached_world) = Return false
  ∧ fst (push.download_and_extract env url fname empty_world) = Return false.
Proof.
  intros env url fname.
  destruct (download_empty env url fname {| status_code := 200; content := ["XZ"] |}
              eq_refl eq_refl eq_refl) as [Hc Hp].
  destruct (Hc true cached_world) as (Hrun & _); [vm_compute; reflexivity..|].
  destruct (Hp empty_world) as (Hrun' & _); [vm_compute; reflexivity|].
  rewrite Hrun, Hrun'. split; reflexivity.
Defined.

(** ** The deploy sequence *)

Section deploy.

Variable env : host.

Lemma popen_run argv w :
  subprocess.Popen env argv w = (Return (spawn env argv), logged w [EvPopen argv]).
Proof. reflexivity. Qed.

Lemma system_run cmd w :
  os.system env cmd w = (Return (returncode (shell env cmd) * 256), logged w [EvSystem cmd]).
Proof. reflexivity. Qed.

Lemma command_push_failed fname tid w :
  let dest := path.join (command.DOWNLOAD_PATH env) fname in
  let res := spawn env (command.push_cmd dest tid) in
  returncode res ≠ 0 →
  command.push_and_execute env fname tid w
  = if py.utf8_valid (stdout res) && py.utf8_valid (stderr res) then
      (Return tt,
       logged w [EvPopen (command.push_cmd dest tid);
                 EvLog ERROR ("Could not push the binary to device. "
                              +:+ stdout res +:+ stderr res)])
    else (Raise UnicodeDecodeError, logged w [EvPopen (command.push_cmd dest tid)]).
Proof.
  intros dest res Hrc. unfold command.push_and_execute. fold dest.
  rewrite (bind_run _ _ _ _ _ (popen_run _ _)). fold res.
  unfold subprocess.wait. rewrite bind_ret.
  apply Z.eqb_neq in Hrc. rewrite Hrc. simpl.
  unfold decode, bind, ret, raise.
  destruct (py.utf8_valid (stdout res)); [|reflexivity].
  destruct (py.utf8_valid (stderr res)); [|reflexivity].
  rewrite log_run, logged_logged. reflexivity.
Qed.

Lemma command_push_done fname tid w :
  let dest := path.join (command.DOWNLOAD_PATH env) fname in
  returncode (spawn env (command.push_cmd dest tid)) = 0 →
  command.push_and_execute env fname tid w
  = (fst (launch_outcome (spawn env (command.execute_cmd tid))),
     logged w (command_deploy_steps dest tid
               ++ snd (launch_outcome (spawn env (command.execute_cmd tid))))).
Proof.
  intros dest Hrc. unfold command.push_and_execute. fold dest.
  rewrite (bind_run _ _ _ _ _ (popen_run _ _)).
  unfold subprocess.wait. rewrite bind_ret.
  rewrite Hrc. change (negb (0 =? 0)) with false. cbv iota.
  rewrite (bind_run _ _ _ _ _ (log_run _ _ _)).
  erewrite (bind_run (res <- subprocess.Popen env (command.chmod_cmd tid);; ret (returncode res)))
    by (rewrite (bind_run _ _ _ _ _ (popen_run _ _)); reflexivity).
  rewrite (bind_run _ _ _ _ _ (log_run _ _ _)).
  erewrite (bind_run (res <- subprocess.Popen env (command.kill_cmd tid);; ret (returncode res)))
    by (rewrite (bind_run _ _ _ _ _ (popen_run _ _)); reflexivity).
  rewrite (bind_run _ _ _ _ _ (log_run _ _ _)).
  rewrite (bind_run _ _ _ _ _ (popen_run _ _)).
  repeat rewrite logged_logged. simpl app.
  unfold launch_outcome, subprocess.wait_for, try_or, bind, ret, raise, decode.
  destruct (runtime (spawn env (command.execute_cmd tid)) <=? 3);
    destruct (returncode (spawn env (command.execute_cmd tid)) =? 0);
    try destruct (py.utf8_valid (text.readline _));
    unfold logged, log, emit, command_deploy_steps; norm_trace;
    rewrite ?app_nil_r; reflexivity.
Qed.


Lemma push_push_done fname w :
  returncode (shell env (push.push_cmd fname)) = 0 →
  push.push_and_execute env fname w
  = (Return tt,
     stepped w
       (if creatable (fs w) "frida.pid"
        then <["frida.pid" := File (stdout (shell env push.ps_pipeline))]> (fs w)
        else fs w)
       (push_deploy_steps fname)).
Proof.
  intros Hrc. unfold push.push_and_execute.
  rewrite (bind_run _ _ _ _ _ (system_run _ _)).
  rewrite Hrc. change (0 * 256 =? 0) with true. cbv iota.
  rewrite (bind_run _ _ _ _ _ (print_run _ _)).
  rewrite (bind_run _ _ _ _ _ (system_run _ _)).
  rewrite (bind_run _ _ _ _ _ (print_run _ _)).
  rewrite (bind_run _ _ _ _ _ (system_run _ _)).
  rewrite (bind_run _ _ _ _ _ (print_run _ _)).
  repeat rewrite logged_logged. simpl app.
  unfold os.system_to.
  unfold bind at 1. unfold bind at 1. unfold emit at 1.
  unfold bind at 1. rewrite redirect_run.
  unfold ret, stepped, logged, push_deploy_steps. norm_trace. reflexivity.
Qed.

End deploy.




(** C9, as stated, fails: the standalone script has no kill step.  After
    a successful push it runs chmod and then launches the server; no
    command of the run is a kill. *)
Lemma standalone_launches_without_kill :
  let env := sample_host "" "" "" 0 200 [] None in
  let t := trace (snd (push.push_and_execute env "frida-server-16.1.4-android-arm64"
                         empty_world)) in
  In (EvSystem push.execute_cmd) t ∧ Forall (λ e, is_kill e = false) t.
Proof.
  vm_compute. split.
  - do 4 right. left. reflexivity.
  - repeat constructor.
Qed.

(** C9, amended: in the packaged command every run whose push succeeds
    issues push, chmod, kill and launch in this order, the kill right
    before the launch, and starts no process after the launch.  The
    standalone script issues push, chmod, launch and the query of the
    process table, and none of its commands is a kill. *)
Theorem kill_before_launch env fname tid w :
  (let dest := path.join (command.DOWNLOAD_PATH env) fname in
   let server := spawn env (command.execute_cmd tid) in
   returncode (spawn env (command.push_cmd dest tid)) = 0 →
   command.push_and_execute env fname tid w
   = (fst (launch_outcome server),
      logged w ([EvPopen (command.push_cmd dest tid);
                 EvLog INFO "File pushed to device successfully.";
                 EvPopen (command.chmod_cmd tid);
                 EvLog INFO "Killing all frida-server on device.";
                 EvPopen (command.kill_cmd tid);
                 EvLog INFO "Executing frida-server on device.";
                 EvPopen (command.execute_cmd tid)]
                ++ snd (launch_outcome server)))
   ∧ Forall (λ e, is_process e = false) (snd (launch_outcome server))
   ∧ is_kill (EvPopen (command.kill_cmd tid)) = true)
  ∧ (let steps :=
       [EvSystem (push.push_cmd fname);
        EvPrint (text.tab +:+ "[+] File pushed to device successfully.");
        EvSystem push.chmod_cmd;
        EvPrint (text.tab +:+ "[+] Executing frida-server on device.");
        EvSystem push.execute_cmd;
        EvPrint (text.tab +:+ "[+] Fetching the PID of frida-server and saving it to file.");
        EvSystem (push.ps_pipeline +:+ " > frida.pid")] in
     returncode (shell env (push.push_cmd fname)) = 0 →
     push.push_and_execute env fname w
     = (Return tt,
        stepped w
          (if creatable (fs w) "frida.pid"
           then <["frida.pid" := File (stdout (shell env push.ps_pipeline))]> (fs w)
           else fs w)
          steps)
     ∧ Forall (λ e, is_kill e = false) steps).
Proof.
  split.
  - intros dest server Hrc. rewrite (command_push_done env fname tid w Hrc).
    fold dest server. split; [reflexivity|]. split.
    + unfold launch_outcome.
      destruct (_ && _); [destruct (py.utf8_valid _)|]; simpl; repeat constructor.
    + unfold is_kill, command.kill_cmd.
      rewrite bool_decide_eq_true_2 by (repeat constructor). simpl.
      rewrite !orb_true_r. reflexivity.
  - intros steps Hrc. rewrite (push_push_done env fname w Hrc).
    split; [reflexivity | repeat constructor].
Qed.

Lemma kill_before_launch_witness :
  let env := sample_host "" "" "" 0 200 [] None in
  let fname := "frida-server-16.1.4-android-arm64" in
  let dest := path.join (command.DOWNLOAD_PATH env) fname in
  command.push_and_execute env fname "1" empty_world
  = (Return tt,
     logged empty_world
       [EvPopen (command.push_cmd dest "1");
        EvLog INFO "File pushed to device successfully.";
        EvPopen (command.chmod_cmd "1");
        EvLog INFO "Killing all frida-server on device.";
        EvPopen (command.kill_cmd "1");
        EvLog INFO "Executing frida-server on device.";
        EvPopen (command.execute_cmd "1")])
  ∧ push.push_and_execute env fname empty_world
    = (Return tt,
       stepped empty_world {[ "frida.pid" := File "" ]}
         [EvSystem (push.push_cmd fname);
          EvPrint (text.tab +:+ "[+] File pushed to device successfully.");
          EvSystem push.chmod_cmd;
          EvPrint (text.tab +:+ "[+] Executing frida-server on device.");
          EvSystem push.execute_cmd;
          EvPrint (text.tab +:+ "[+] Fetching the PID of frida-server and saving it to file.");
          EvSystem (push.ps_pipeline +:+ " > frida.pid")]).
Proof.
  intros env fname dest.
  destruct (kill_before_launch env fname "1" empty_world) as [Hc Hp].
  split.
  - destruct Hc as (Hrun & _); [vm_compute; reflexivity|].
    rewrite Hrun. reflexivity.
  - destruct Hp as (Hrun & _); [vm_compute; reflexivity|].
    rewrite Hrun. reflexivity.
Defined.

(** ** Sanity checks of the library model *)

Example path_examples :
  path.join "/home/u/.frida-push" "frida-server-16.0-android-arm"
    = "/home/u/.frida-push/frida-server-16.0-android-arm"
  ∧ path.join "/home/u/.frida-push" "/etc/passwd" = "/etc/passwd"
  ∧ path.split "/home/u/.frida-push" = ("/home/u", ".frida-push")
  ∧ path.split "/x" = ("/", "x")
  ∧ path.split "a/b/" = ("a/b", "")
  ∧ path.basename "/a/b.xz" = "b.xz"
  ∧ path.expanduser "/home/u" "~/.frida-push" = "/home/u/.frida-push"
  ∧ text.split_space 0 "" "emulator-5554  device product:sdk  transport_id:1"
    = ["emulator-5554"; "device"; "product:sdk"; "transport_id:1"]
  ∧ text.split_on ":" "" "transport_id:1" = ["transport_id"; "1"]
  ∧ text.strip "  ab c  " = "ab c"
  ∧ text.of_Z 404 = "404"
  ∧ py.bytes_strip (py.bytes_lower " ARM64-v8a  ") = "arm64-v8a".
Proof. repeat split; reflexivity. Qed.

(** * Further properties of the code *)

(** ** The device listing *)

Lemma split_on_acc sep s : ∀ cur,
  text.split_on sep cur s
  = match text.split_on sep "" s with
    | x :: xs => (cur +:+ x) :: xs
    | [] => []
    end.
Proof.
  induction s as [|c s IH]; intros cur; simpl.
  - rewrite string_app_nil_r. reflexivity.
  - case_bool_decide.
    + rewrite string_app_nil_r. reflexivity.
    + rewrite (IH (cur +:+ String c "")), (IH ("" +:+ String c "")).
      destruct (text.split_on sep "" s); [reflexivity|].
      rewrite string_app_assoc. reflexivity.
Qed.

Lemma split_on_plain sep s :
  has_char sep s = false → text.split_on sep "" s = [s].
Proof.
  induction s as [|c s IH]; simpl; intros H; [reflexivity|].
  apply orb_false_elim in H as [H1 H2]. rewrite H1.
  rewrite split_on_acc, (IH H2). reflexivity.
Qed.

Lemma split_on_app sep k s :
  has_char sep k = false →
  text.split_on sep "" (k +:+ String sep s) = k :: text.split_on sep "" s.
Proof.
  induction k as [|c k IH]; intros H.
  - change (text.split_on sep "" (String sep s) = "" :: text.split_on sep "" s).
    simpl. rewrite bool_decide_eq_true_2 by reflexivity. reflexivity.
  - simpl in H. apply orb_false_elim in H as [H1 H2].
    change (text.split_on sep "" (String c (k +:+ String sep s))
            = String c k :: text.split_on sep "" s).
    simpl. rewrite H1, split_on_acc, (IH H2). reflexivity.
Qed.

Lemma split_on_nonempty sep s : ∀ cur, text.split_on sep cur s ≠ [].
Proof.
  induction s as [|c s IH]; intros cur; simpl; [discriminate|].
  case_bool_decide; [discriminate | apply IH].
Qed.

Lemma split_on_two sep t :
  has_char sep t = true → ∃ k v rest, text.split_on sep "" t = k :: v :: rest.
Proof.
  induction t as [|c t IH]; simpl; intros H; [discriminate|].
  case_bool_decide.
  - pose proof (split_on_nonempty sep t "") as Hne.
    destruct (text.split_on sep "" t) as [|x xs]; [congruence | eauto].
  - simpl in H. destruct (IH H) as (k & v & rest & E).
    rewrite split_on_acc, E. eauto.
Qed.

(** X1: a token without a colon among the properties of a device line
    makes the inner dictionary comprehension raise [IndexError], whatever
    the other tokens are. *)
Theorem properties_token_without_colon tokens acc
  (Hbad : Exists (λ t, has_char ":" t = false) tokens) :
  command.properties tokens acc = Raise IndexError.
Proof.
  revert acc. induction Hbad as [t ts Ht | t ts Hts IH]; intros acc; simpl.
  - rewrite (split_on_plain _ _ Ht). reflexivity.
  - destruct (has_char ":" t) eqn:E.
    + destruct (split_on_two _ _ E) as (k & v & rest & ->). apply IH.
    + rewrite (split_on_plain _ _ E). reflexivity.
Qed.

Lemma properties_token_without_colon_witness :
  command.properties ["product:sdk"; "permissions"; "transport_id:1"] ∅
  = Raise IndexError.
Proof.
  apply properties_token_without_colon.
  apply Exists_cons_tl, Exists_cons_hd. reflexivity.
Defined.

Lemma split_token kv :
  has_char ":" kv.1 = false → has_char ":" kv.2 = false →
  text.split_on ":" "" (token kv) = [kv.1; kv.2].
Proof.
  intros H1 H2. unfold token.
  change (kv.1 +:+ ":" +:+ kv.2) with (kv.1 +:+ String ":" kv.2).
  rewrite (split_on_app _ _ _ H1), (split_on_plain _ _ H2). reflexivity.
Qed.

(** X2: the properties of a device line are read back from its tokens:
    for keys and values without a colon, the tokens [key:value] give the
    dictionary of the keys and values, a later token replacing an earlier
    one with the same key. *)
Theorem properties_of_tokens kvs acc
  (Hplain : Forall (λ kv, has_char ":" kv.1 = false ∧ has_char ":" kv.2 = false) kvs) :
  command.properties (map token kvs) acc = Return (dict_of kvs acc).
Proof.
  revert acc. induction Hplain as [|kv kvs [H1 H2] _ IH]; intros acc; simpl.
  - reflexivity.
  - rewrite (split_token kv H1 H2). apply IH.
Qed.

Lemma properties_of_tokens_witness :
  command.properties (map token [("product", "sdk"); ("transport_id", "1");
                                 ("product", "phone")]) ∅
  = Return (<["product" := "phone"]> (<["transport_id" := "1"]> (<["product" := "sdk"]> ∅))).
Proof.
  apply (properties_of_tokens
           [("product", "sdk"); ("transport_id", "1"); ("product", "phone")] ∅).
  repeat constructor.
Defined.

(** X3: a value that itself holds a colon is cut at that colon: of a
    token [key:value:more] only [value] is kept. *)
Theorem properties_value_cut k v more acc
  (Hk : has_char ":" k = false) (Hv : has_char ":" v = false) :
  command.properties [k +:+ ":" +:+ v +:+ ":" +:+ more] acc = Return (<[k := v]> acc).
Proof.
  simpl.
  change (k +:+ ":" +:+ v +:+ ":" +:+ more) with (k +:+ String ":" (v +:+ String ":" more)).
  rewrite (split_on_app _ _ _ Hk), (split_on_app _ _ _ Hv). reflexivity.
Qed.

Lemma properties_value_cut_witness :
  command.properties ["usb:1-1:2"] ∅ = Return {[ "usb" := "1-1" ]}.
Proof.
  exact (properties_value_cut "usb" "1-1" "2" ∅ eq_refl eq_refl).
Defined.

Lemma device_dict_keys tuples : ∀ acc r,
  command.device_dict tuples acc = Return r →
  (∀ k, is_Some (acc !! k) → is_Some (r !! k))
  ∧ (∀ d0 rest, In (d0 :: rest) tuples → is_Some (r !! d0)).
Proof.
  induction tuples as [|d ds IH]; intros acc r H; simpl in H.
  - injection H as <-. split; [auto | intros ? ? []].
  - destruct d as [|d0 rest0]; [discriminate|].
    destruct (command.properties (drop 2 (d0 :: rest0)) ∅) as [props|e]; [|discriminate].
    destruct (IH _ _ H) as [Hacc Hin]. split.
    + intros k Hk. apply Hacc.
      destruct (decide (d0 = k)) as [->|Hne];
        [rewrite lookup_insert_eq; eauto | rewrite lookup_insert_ne by exact Hne; exact Hk].
    + intros d1 rest [Heq|Hrest]; [|eapply Hin; exact Hrest].
      injection Heq as <- <-. apply Hacc. rewrite lookup_insert_eq. eauto.
Qed.

(** X4: when the dictionary comprehension of [list_devices] succeeds,
    every tuple of the set contributes its first field as a key, so the
    mapping is empty only if the listing had no line to offer. *)
Theorem device_dict_covers tuples r
  (Hrun : command.device_dict tuples ∅ = Return r) :
  (∀ d0 rest, In (d0 :: rest) tuples → is_Some (r !! d0))
  ∧ (r = ∅ ↔ tuples = []).
Proof.
  destruct (device_dict_keys _ _ _ Hrun) as [_ Hin].
  split; [exact Hin|]. split.
  - intros ->. destruct tuples as [|[|d0 rest] ds]; [reflexivity | discriminate |].
    destruct (Hin d0 rest (or_introl eq_refl)) as [x Hx].
    rewrite lookup_empty in Hx. discriminate.
  - intros ->. simpl in Hrun. congruence.
Qed.

Lemma device_dict_covers_witness :
  is_Some (one_device !! "emulator-5554").
Proof.
  assert (Hrun : command.device_dict
                   [["emulator-5554"; "device"; "product:sdk_gphone"; "model:sdk";
                     "transport_id:1"]] ∅ = Return one_device)
    by (vm_compute; reflexivity).
  destruct (device_dict_covers _ _ Hrun) as [Hin _].
  apply (Hin "emulator-5554" ["device"; "product:sdk_gphone"; "model:sdk"; "transport_id:1"]).
  left. reflexivity.
Defined.

Lemma bind_ret_lift {A B} (a : A) (k : A → M B) w : bind (lift (Return a)) k w = k a w.
Proof. reflexivity. Qed.

(** X5: when the shell line of the device listing as a whole exits with
    a non-zero code (the code is that of tail, the last command of the
    pipeline, so a failing adb alone does not do it), [check_output] raises
    [CalledProcessError]; [main] does not catch it, and the listing is the
    only thing the run has done. *)
Theorem main_listing_fails env ops w
  (Hfail : returncode (shell env list_cmd) ≠ 0) :
  command.main env ops w
  = (Raise (CalledProcessError list_cmd (returncode (shell env list_cmd))),
     logged w [EvShell list_cmd]).
Proof.
  unfold command.main, command.list_devices.
  change (str.format "{} devices -l | tail -n+2" [command.ADB_PATH])
    with (Return list_cmd).
  unfold subprocess.check_output; unfold_m; simpl.
  rewrite (proj2 (Z.eqb_neq _ _) Hfail). reflexivity.
Qed.

Lemma main_listing_fails_witness :
  let env := scripted_host (λ _, exited 1 "") (λ _, exited 0 "")
               (λ _, Raise (ConnectionError "")) (λ _, None) in
  command.main env {| command.device_name := None; command.force := false |} empty_world
  = (Raise (CalledProcessError list_cmd 1), logged empty_world [EvShell list_cmd]).
Proof.
  intros env.
  apply (main_listing_fails env {| command.device_name := None; command.force := false |}
           empty_world).
  simpl. lia.
Defined.

Lemma check_output_ok env cmd w :
  returncode (shell env cmd) = 0 →
  subprocess.check_output env cmd w = (Return (stdout (shell env cmd)), logged w [EvShell cmd]).
Proof. intros H. unfold subprocess.check_output; unfold_m. rewrite H. reflexivity. Qed.

Lemma check_output_fail env cmd w :
  returncode (shell env cmd) ≠ 0 →
  subprocess.check_output env cmd w
  = (Raise (CalledProcessError cmd (returncode (shell env cmd))), logged w [EvShell cmd]).
Proof.
  intros H. unfold subprocess.check_output; unfold_m.
  rewrite (proj2 (Z.eqb_neq _ _) H). reflexivity.
Qed.

Lemma list_devices_blank env w :
  returncode (shell env list_cmd) = 0 →
  py.bytes_strip (stdout (shell env list_cmd)) = "" →
  command.list_devices env w = (Return ∅, logged w [EvShell list_cmd]).
Proof.
  intros Hrc Hblank. unfold command.list_devices.
  change (str.format "{} devices -l | tail -n+2" [command.ADB_PATH])
    with (Return list_cmd).
  rewrite bind_ret_lift.
  rewrite (bind_run _ _ _ _ _ (check_output_ok _ _ _ Hrc)).
  rewrite Hblank. reflexivity.
Qed.

(** X6: when the listing prints nothing but white space, [list_devices]
    returns the empty mapping and [main] exits with status 1 after the
    message, whatever the options are. *)
Theorem main_blank_listing env ops w
  (Hrc : returncode (shell env list_cmd) = 0)
  (Hblank : py.bytes_strip (stdout (shell env list_cmd)) = "") :
  command.list_devices env w = (Return ∅, logged w [EvShell list_cmd])
  ∧ command.main env ops w
    = (Raise (SystemExit 1),
       logged w [EvShell list_cmd; EvLog ERROR "No device found. Exiting."]).
Proof.
  split; [apply list_devices_blank; assumption|].
  unfold command.main.
  erewrite bind_run by (apply list_devices_blank; assumption).
  erewrite bind_raise by (apply select_device_none; reflexivity).
  rewrite logged_logged. reflexivity.
Qed.

Lemma main_blank_listing_witness :
  let env := scripted_host (λ _, exited 0 (text.nl +:+ "  " +:+ text.nl))
               (λ _, exited 0 "") (λ _, Raise (ConnectionError "")) (λ _, None) in
  command.main env {| command.device_name := Some "emulator-5554"; command.force := true |}
    empty_world
  = (Raise (SystemExit 1),
     logged empty_world [EvShell list_cmd; EvLog ERROR "No device found. Exiting."]).
Proof.
  intros env.
  apply (main_blank_listing env
           {| command.device_name := Some "emulator-5554"; command.force := true |}
           empty_world); reflexivity.
Defined.

(** ** The selected device *)

(** X7: a device named with -d that is in the mapping is selected,
    however many devices are connected. *)
Theorem select_device_named ops devices name props w
  (Hname : command.device_name ops = Some name)
  (Hin : devices !! name = Some props) :
  command.select_device ops devices w = (Return name, logged w [devices_line devices]).
Proof.
  unfold command.select_device, devices_line; unfold_m.
  rewrite Hname.
  assert (Hsize : size devices ≠ 0%nat).
  { intros H0. apply map_size_empty_iff in H0. subst devices.
    rewrite lookup_empty in Hin. discriminate. }
  rewrite bool_decide_eq_false_2 by exact Hsize.
  rewrite bool_decide_eq_false_2 by congruence.
  reflexivity.
Qed.

Lemma select_device_named_witness :
  command.select_device
    {| command.device_name := Some "0123456789ABCDEF"; command.force := false |}
    two_devices empty_world
  = (Return "0123456789ABCDEF", logged empty_world [devices_line two_devices]).
Proof.
  apply (select_device_named _ two_devices "0123456789ABCDEF" {[ "transport_id" := "2" ]}).
  - reflexivity.
  - vm_compute. reflexivity.
Defined.

(** X8: whatever the options and the mapping, a name that the selection
    returns is a key of the mapping: the lookup [devices[ops.device_name]]
    that follows cannot raise [KeyError]. *)
Theorem select_device_returns_key ops devices w name w'
  (Hrun : command.select_device ops devices w = (Return name, w')) :
  is_Some (devices !! name).
Proof.
  unfold command.select_device in Hrun; unfold_m.
  destruct (bool_decide (size devices = 0%nat)); [discriminate|].
  destruct (command.device_name ops) as [n|].
  - destruct (bool_decide (devices !! n = None)) eqn:E; [discriminate|].
    apply bool_decide_eq_false in E. injection Hrun as <- _.
    destruct (devices !! n); [eauto | congruence].
  - destruct (negb (bool_decide (size devices = 1%nat))); [discriminate|].
    destruct (map_to_list devices) as [|[k v] l] eqn:E; [discriminate|].
    injection Hrun as <- _.
    exists v. apply elem_of_map_to_list. rewrite E. left.
Qed.

Lemma select_device_returns_key_witness :
  is_Some (two_devices !! "0123456789ABCDEF").
Proof.
  apply (select_device_returns_key
           {| command.device_name := Some "0123456789ABCDEF"; command.force := false |}
           two_devices empty_world "0123456789ABCDEF"
           (logged empty_world [devices_line two_devices])).
  vm_compute. reflexivity.
Defined.

(** X9: a selected device whose line has no transport_id makes [main]
    raise [KeyError] right after the version line, before any query to the
    device. *)
Theorem main_without_transport_id env ops w devices name props
  (Hlist : command.list_devices env w = (Return devices, logged w [EvShell list_cmd]))
  (Hselect : command.select_device ops devices (logged w [EvShell list_cmd])
             = (Return name, logged w [EvShell list_cmd; devices_line devices]))
  (Hdev : devices !! name = Some props)
  (Hmissing : props !! "transport_id" = None) :
  command.main env ops w
  = (Raise (KeyError "transport_id"),
     logged w [EvShell list_cmd; devices_line devices; version_line env]).
Proof.
  unfold command.main.
  rewrite (bind_run _ _ _ _ _ Hlist), (bind_run _ _ _ _ _ Hselect).
  unfold command.deploy_to.
  rewrite (bind_run _ _ _ _ _ (log_run _ _ _)).
  unfold command.transport_of. rewrite Hdev, Hmissing.
  unfold bind, raise. rewrite logged_logged. reflexivity.
Qed.

Lemma main_without_transport_id_witness :
  let env := scripted_host
               (λ _, exited 0 ("emulator-5554   device product:sdk_gphone" +:+ text.nl))
               (λ _, exited 0 "") (λ _, Raise (ConnectionError "")) (λ _, None) in
  command.main env {| command.device_name := None; command.force := false |} empty_world
  = (Raise (KeyError "transport_id"),
     logged empty_world [EvShell list_cmd; devices_line legacy_device; version_line env]).
Proof.
  intros env.
  apply (main_without_transport_id env _ empty_world legacy_device "emulator-5554"
           {[ "product" := "sdk_gphone" ]});
    vm_compute; reflexivity.
Defined.

(** ** More on the architecture detection *)

Lemma normalization_values s k :
  table_lookup normalization_table s = Some k → In (py.Str k) command_keys.
Proof.
  unfold table_lookup, normalization_table, command_keys.
  repeat case_bool_decide; intros Hk; try discriminate; injection Hk as <-;
    simpl; auto 6.
Qed.

Lemma uname_values s k :
  table_lookup uname_table s = Some k → In (py.Str k) push_keys.
Proof.
  unfold table_lookup, uname_table, push_keys.
  repeat case_bool_decide; intros Hk; try discriminate; injection Hk as <-;
    simpl; auto 6.
Qed.

(** X10: whatever the device answers, an architecture that
    [get_device_arch] returns is one of four keys: arm, arm64, x86, x86_64
    in the packaged command and i386, arm64, arm, x86_64 in the standalone
    script.  No other string reaches the download URL. *)
Theorem get_device_arch_range env tid w :
  (∀ a, fst (command.get_device_arch env tid w) = Return (Some a) → In a command_keys)
  ∧ (∀ a, fst (push.get_device_arch env w) = Return (Some a) → In a push_keys).
Proof.
  split; intros a.
  - rewrite command_get_device_arch_run. simpl.
    destruct (_ =? 0); [|discriminate].
    destruct (py.utf8_valid _); [|discriminate]. simpl.
    destruct (table_lookup _ _) as [k|] eqn:E; [|discriminate].
    simpl. intros H. injection H as <-. eapply normalization_values, E.
  - rewrite push_get_device_arch_run. simpl.
    destruct (_ =? 0); [|discriminate].
    destruct (py.utf8_valid _); [|discriminate].
    destruct (table_lookup _ _) as [k|] eqn:E.
    + simpl. intros H. injection H as <-. eapply uname_values, E.
    + destruct (_ =? 0); discriminate.
Qed.

Lemma get_device_arch_range_witness :
  let env := sample_host ("i686" +:+ text.nl) ("X86_64" +:+ text.nl) "" 0 200 [] None in
  In (py.Str "x86_64") command_keys ∧ In (py.Str "i386") push_keys.
Proof.
  intros env.
  destruct (get_device_arch_range env "1" empty_world) as [Hc Hp].
  split; [apply Hc | apply Hp]; vm_compute; reflexivity.
Defined.

Lemma transport_of_run devices name props tid w :
  devices !! name = Some props → props !! "transport_id" = Some tid →
  command.transport_of devices name w = (Return tid, w).
Proof. intros H1 H2. unfold command.transport_of. rewrite H1, H2. reflexivity. Qed.

Lemma deploy_to_run env ops devices name props tid w :
  devices !! name = Some props → props !! "transport_id" = Some tid →
  command.deploy_to env ops devices name w
  = match command.get_device_arch env tid (logged w [version_line env]) with
    | (Return arch, w') => command.fetch_and_deploy env ops tid arch w'
    | (Raise e, w') => (Raise e, w')
    end.
Proof.
  intros H1 H2. unfold command.deploy_to.
  rewrite (bind_run _ _ _ _ _ (log_run _ _ _)).
  rewrite (bind_run _ _ _ _ _ (transport_of_run _ _ _ _ _ H1 H2)).
  reflexivity.
Qed.

(** X11: when the architecture query to the selected device fails, or
    answers with bytes that are not UTF-8, the packaged command stops with
    the exception ([CalledProcessError], [UnicodeDecodeError]) right after
    the query: nothing is downloaded and nothing is pushed. *)
Theorem deploy_to_query_fails env ops devices name props tid w
  (Hdev : devices !! name = Some props)
  (Htid : props !! "transport_id" = Some tid) :
  let r := shell env (getprop_cmd_of tid) in
  let w' := logged w [version_line env; EvShell (getprop_cmd_of tid)] in
  (returncode r ≠ 0 →
   command.deploy_to env ops devices name w
   = (Raise (CalledProcessError (getprop_cmd_of tid) (returncode r)), w'))
  ∧ (returncode r = 0 → py.utf8_valid (normalize (stdout r)) = false →
     command.deploy_to env ops devices name w = (Raise UnicodeDecodeError, w')).
Proof.
  intros r w'. split.
  - intros Hrc. rewrite (deploy_to_run _ _ _ _ _ _ _ Hdev Htid).
    rewrite command_get_device_arch_run. fold r. simpl.
    rewrite (proj2 (Z.eqb_neq _ _) Hrc). rewrite logged_logged. reflexivity.
  - intros Hrc Hbad. rewrite (deploy_to_run _ _ _ _ _ _ _ Hdev Htid).
    rewrite command_get_device_arch_run. fold r. simpl.
    rewrite Hrc, Hbad. simpl. rewrite logged_logged. reflexivity.
Qed.

Lemma deploy_to_query_fails_witness :
  let env := scripted_host (λ _, exited 0 (String "255"%char "")) (λ _, exited 0 "")
               (λ _, Raise (ConnectionError "")) (λ _, None) in
  command.deploy_to env {| command.device_name := None; command.force := false |}
    one_device "emulator-5554" empty_world
  = (Raise UnicodeDecodeError,
     logged empty_world [version_line env; EvShell (getprop_cmd_of "1")]).
Proof.
  intros env.
  assert (Hprops : one_device !! "emulator-5554"
                   = Some (<["product" := "sdk_gphone"]>
                             (<["model" := "sdk"]> {[ "transport_id" := "1" ]})))
    by (vm_compute; reflexivity).
  destruct (deploy_to_query_fails env
              {| command.device_name := None; command.force := false |}
              one_device "emulator-5554" _ "1" empty_world Hprops) as [_ Hbad];
    [vm_compute; reflexivity|].
  apply Hbad; reflexivity.
Defined.

(** X12: when the answer of the device is decodable but not in the
    table, the packaged command logs that the architecture could not be
    determined and returns normally; the run has sent one query to the
    device, no request to the release host, and written no file. *)
Theorem deploy_to_unknown_arch env ops devices name props tid w
  (Hdev : devices !! name = Some props)
  (Htid : props !! "transport_id" = Some tid)
  (Hrc : returncode (shell env (getprop_cmd_of tid)) = 0)
  (Hutf8 : py.utf8_valid (normalize (stdout (shell env (getprop_cmd_of tid)))) = true)
  (Hunknown : table_lookup normalization_table
                (normalize (stdout (shell env (getprop_cmd_of tid)))) = None) :
  command.deploy_to env ops devices name w
  = (Return tt,
     logged w [version_line env; EvShell (getprop_cmd_of tid);
               EvLog INFO "Could not determine device's arch. Exiting."]).
Proof.
  rewrite (deploy_to_run _ _ _ _ _ _ _ Hdev Htid).
  rewrite command_get_device_arch_run. simpl.
  rewrite Hrc, Hutf8, Hunknown. simpl.
  unfold command.fetch_and_deploy. rewrite log_run, !logged_logged. reflexivity.
Qed.

Lemma deploy_to_unknown_arch_witness :
  let env := scripted_host (λ _, exited 0 ("mips64" +:+ text.nl)) (λ _, exited 0 "")
               (λ _, Raise (ConnectionError "")) (λ _, None) in
  command.deploy_to env {| command.device_name := None; command.force := false |}
    one_device "emulator-5554" empty_world
  = (Return tt,
     logged empty_world [version_line env; EvShell (getprop_cmd_of "1");
                         EvLog INFO "Could not determine device's arch. Exiting."]).
Proof.
  intros env.
  apply (deploy_to_unknown_arch env _ one_device "emulator-5554"
           (<["product" := "sdk_gphone"]> (<["model" := "sdk"]> {[ "transport_id" := "1" ]}))
           "1" empty_world); vm_compute; reflexivity.
Defined.

(** X13: in the standalone script the output of [uname -m] decides alone
    when it is in the table: the key is returned after that single query
    and [getprop] is never asked. *)
Theorem push_uname_decides env w k
  (Hrc : returncode (shell env uname_cmd) = 0)
  (Hutf8 : py.utf8_valid (normalize (stdout (shell env uname_cmd))) = true)
  (Hhit : table_lookup uname_table (normalize (stdout (shell env uname_cmd))) = Some k) :
  push.get_device_arch env w = (Return (Some (py.Str k)), logged w [EvShell uname_cmd]).
Proof.
  rewrite push_get_device_arch_run. simpl. rewrite Hrc, Hutf8, Hhit. reflexivity.
Qed.

Lemma push_uname_decides_witness :
  let env := sample_host (" I686" +:+ text.nl) ("x86" +:+ text.nl) "" 0 200 [] None in
  push.get_device_arch env empty_world
  = (Return (Some (py.Str "i386")), logged empty_world [EvShell uname_cmd]).
Proof.
  intros env. apply (push_uname_decides env empty_world "i386"); vm_compute; reflexivity.
Defined.

(** ** More on the download *)

(** X14: when lzma rejects the downloaded archive, the exception leaves
    [download_and_extract] and the archive stays on disk with the body of
    the response: neither variant removes it on this path, and the
    destination is not written. *)
Theorem download_corrupt_archive env url fname resp
  (Hhttp : http env url = Return resp)
  (Hstatus : status_code resp = 200)
  (Hlzma : lzma_decompress env (body resp) = None) :
  (∀ force w,
     let dest := path.join (command.DOWNLOAD_PATH env) fname in
     let archive := dest +:+ ".xz" in
     let w1 := after_makedirs env w in
     cache_hit (fs w) dest force = false →
     creatable (fs w1) archive = true →
     command.download_and_extract env url fname force w
     = (Raise LZMAError,
        stepped w1 (<[archive := File (body resp)]> (fs w1)) (fetch_log url archive resp)))
  ∧ (∀ w,
       let archive := fname +:+ ".xz" in
       creatable (fs w) archive = true →
       push.download_and_extract env url fname w
       = (Raise LZMAError,
          stepped w (<[archive := File (body resp)]> (fs w)) (fetch_prints url archive resp))).
Proof.
  split.
  - intros force w dest archive w1 Hmiss Hca.
    rewrite command_download_request by exact Hmiss. rewrite Hhttp, Hstatus. simpl.
    unfold bind at 1.
    rewrite (archive_round env archive (content resp)) by exact Hca.
    fold (body resp). rewrite Hlzma. unfold stepped, fetch_log. norm_trace. reflexivity.
  - intros w archive Hca.
    rewrite push_download_request, Hhttp, Hstatus. simpl.
    unfold bind at 1.
    rewrite (archive_round env archive (content resp)) by exact Hca.
    fold (body resp). rewrite Hlzma. unfold stepped, fetch_prints. norm_trace. reflexivity.
Qed.

Lemma download_corrupt_archive_witness :
  let env := sample_host "" "" "" 0 200 ["<html>"] None in
  let fname := "frida-server-16.1.4-android-arm64" in
  let r := push.download_and_extract env (url_template "16.1.4" "arm64") fname empty_world in
  fst r = Raise LZMAError ∧ fs (snd r) !! (fname +:+ ".xz") = Some (File "<html>").
Proof.
  intros env fname r.
  destruct (download_corrupt_archive env (url_template "16.1.4" "arm64") fname
              {| status_code := 200; content := ["<html>"] |} eq_refl eq_refl eq_refl)
    as [_ Hp].
  unfold r. rewrite (Hp empty_world) by (vm_compute; reflexivity).
  split; [reflexivity | apply lookup_insert_eq].
Defined.

(** X15: when the request itself fails, the exception of [requests.get]
    leaves [download_and_extract] in both variants; up to then no file was
    written and no process started. *)
Theorem download_request_fails env url fname e
  (Hhttp : http env url = Raise e) :
  (∀ force w,
     cache_hit (fs w) (path.join (command.DOWNLOAD_PATH env) fname) force = false →
     ∃ w', command.download_and_extract env url fname force w = (Raise e, w')
           ∧ untouched w w')
  ∧ (∀ w, ∃ w', push.download_and_extract env url fname w = (Raise e, w')
                ∧ untouched w w').
Proof.
  split.
  - intros force w Hmiss. eexists. split.
    + rewrite command_download_request by exact Hmiss. rewrite Hhttp. reflexivity.
    + apply untouched_logged; [apply untouched_after_makedirs | repeat constructor].
  - intros w. eexists. split.
    + rewrite push_download_request, Hhttp. reflexivity.
    + apply untouched_logged; [apply untouched_refl | repeat constructor].
Qed.

Lemma download_request_fails_witness :
  let env := scripted_host (λ _, exited 0 "") (λ _, exited 0 "")
               (λ url, Raise (ConnectionError url)) (λ _, None) in
  ∃ w', push.download_and_extract env "https://github.com" "f" empty_world
        = (Raise (ConnectionError "https://github.com"), w')
        ∧ untouched empty_world w'.
Proof.
  intros env.
  destruct (download_request_fails env "https://github.com" "f"
              (ConnectionError "https://github.com") eq_refl) as [_ Hp].
  exact (Hp empty_world).
Defined.

Lemma write_dest_result (dest data : string) (w w' : world) :
  (os.open_wb dest;;; os.write dest data;;; ret true) w = (Return true, w') →
  isfile (fs w') dest = true.
Proof.
  intros Hrun.
  destruct (creatable (fs w) dest) eqn:Hc.
  - rewrite (bind_run _ _ _ _ _ (open_wb_run _ _ Hc)) in Hrun.
    erewrite bind_run in Hrun by (apply write_run; simpl; apply lookup_insert_eq).
    unfold ret in Hrun. injection Hrun as <-. unfold isfile. simpl.
    rewrite (creatable_lookup _ _ _ Hc), lookup_insert_eq. reflexivity.
  - destruct (open_wb_fail _ _ Hc) as [e He].
    rewrite (bind_raise _ _ _ _ _ He) in Hrun. discriminate.
Qed.

Lemma command_download_cached env url fname force w :
  cache_hit (fs w) (path.join (command.DOWNLOAD_PATH env) fname) force = true →
  command.download_and_extract env url fname force w
  = (Return true,
     logged (after_makedirs env w)
       [EvLog INFO ("Using "
                    +:+ path.basename (path.join (command.DOWNLOAD_PATH env) fname)
                    +:+ " from downloaded cache")]).
Proof.
  intros Hhit. unfold command.download_and_extract.
  destruct (after_makedirs_spec env w) as (Hmk & Hfiles & _).
  rewrite (bind_run _ _ _ _ _ Hmk).
  rewrite (bind_run _ _ _ _ _ (isfile_run _ _)).
  unfold cache_hit, isfile in Hhit.
  unfold isfile.
  rewrite (same_files_isfile _ _ (path.join (command.DOWNLOAD_PATH env) fname) Hfiles), Hhit.
  rewrite (bind_run _ _ _ _ _ (log_run _ _ _)). reflexivity.
Qed.

(** X16: whenever [download_and_extract] returns [True], on any path and
    in any file system, the destination is a file when it returns: the
    push that follows has something to send.  This holds for both
    variants. *)
Theorem download_true_leaves_file env url fname :
  (∀ force w w',
     command.download_and_extract env url fname force w = (Return true, w') →
     isfile (fs w') (path.join (command.DOWNLOAD_PATH env) fname) = true)
  ∧ (∀ w w',
       push.download_and_extract env url fname w = (Return true, w') →
       isfile (fs w') fname = true).
Proof.
  split.
  - intros force w w' Hrun.
    destruct (cache_hit (fs w) (path.join (command.DOWNLOAD_PATH env) fname) force) eqn:Hc.
    + rewrite (command_download_cached _ _ _ _ _ Hc) in Hrun. injection Hrun as <-.
      destruct (after_makedirs_spec env w) as (_ & Hfiles & _).
      unfold cache_hit in Hc. apply andb_prop in Hc as [Hc _].
      unfold isfile in *. simpl. rewrite (same_files_isfile _ _ _ Hfiles). exact Hc.
    + rewrite (command_download_request _ _ _ _ _ Hc) in Hrun.
      destruct (http env url) as [req|e] eqn:Hhttp; [|discriminate].
      destruct (status_code req =? 200) eqn:Hs.
      * unfold bind at 1 in Hrun.
        destruct (creatable (fs (after_makedirs env w))
                    (path.join (command.DOWNLOAD_PATH env) fname +:+ ".xz")) eqn:Hca.
        -- rewrite (archive_round env _ (content req)) in Hrun by exact Hca.
           destruct (lzma_decompress env _) as [data|]; [|discriminate].
           cbv zeta in Hrun. unfold bind at 1 in Hrun.
           erewrite unlink_run in Hrun
             by (simpl; rewrite (creatable_lookup _ _ _ Hca); apply lookup_insert_eq).
           unfold ret at 1 in Hrun.
           destruct data as [|c data]; [discriminate|].
           unfold bind at 1 in Hrun. rewrite log_run in Hrun.
           exact (write_dest_result _ _ _ _ Hrun).
        -- destruct (open_wb_fail _ (logged (after_makedirs env w)
                       [EvLog WARNING ("Downloading: " +:+ url); EvHttpGet url]) Hca)
             as [e He].
           unfold bind at 1 in Hrun. rewrite He in Hrun. discriminate.
      * unfold bind, log, emit, ret in Hrun. simpl in Hrun. discriminate.
  - intros w w' Hrun.
    rewrite push_download_request in Hrun.
    destruct (http env url) as [req|e] eqn:Hhttp; [|discriminate].
    destruct (status_code req =? 200) eqn:Hs.
    + unfold bind at 1 in Hrun.
      destruct (creatable (fs w) (fname +:+ ".xz")) eqn:Hca.
      * rewrite (archive_round env _ (content req)) in Hrun by exact Hca.
        destruct (lzma_decompress env _) as [data|]; [|discriminate].
        cbv zeta in Hrun. unfold ret at 1 in Hrun.
        destruct data as [|c data]; [discriminate|].
        unfold bind at 1 in Hrun. rewrite print_run in Hrun.
        exact (write_dest_result _ _ _ _ Hrun).
      * destruct (open_wb_fail _ (logged w [EvPrint (text.tab +:+ "[+] Downloading: " +:+ url);
                                            EvHttpGet url]) Hca) as [e He].
        unfold bind at 1 in Hrun. rewrite He in Hrun. discriminate.
    + unfold bind, print, emit, ret in Hrun. simpl in Hrun. discriminate.
Qed.

Lemma download_true_leaves_file_witness :
  let env := sample_host "" "" "" 0 200 ["XZ"] (Some "ELF") in
  let fname := "frida-server-16.1.4-android-arm64" in
  isfile (fs (snd (push.download_and_extract env (url_template "16.1.4" "arm64") fname
                     empty_world))) fname = true.
Proof.
  intros env fname.
  destruct (download_true_leaves_file env (url_template "16.1.4" "arm64") fname) as [_ Hp].
  apply (Hp empty_world). vm_compute. reflexivity.
Defined.

Lemma after_makedirs_existing env w :
  fs_wf (fs w) → fs w !! command.DOWNLOAD_PATH env = Some Dir →
  after_makedirs env w = w.
Proof.
  intros Hwf Hdir. unfold after_makedirs, try_pass, os.makedirs. unfold bind at 1.
  rewrite (makedirs_existing _ _ _ _ Hwf Hdir). reflexivity.
Qed.

(** X17: with the artifact of the architecture in the cache and no
    --force, the end of [main] goes from the detection to the push without
    a request to the release host: the log of the cache hit is followed at
    once by [push_and_execute] on the cached file. *)
Theorem fetch_and_deploy_from_cache env ops tid (arch : string) w data
  (Harch : arch ≠ "")
  (Hforce : command.force ops = false)
  (Hwf : fs_wf (fs w))
  (Hdir : fs w !! command.DOWNLOAD_PATH env = Some Dir)
  (Hfile : fs w !! path.join (command.DOWNLOAD_PATH env)
                     (artifact_name (FRIDA_VERSION env) arch) = Some (File data)) :
  command.fetch_and_deploy env ops tid (Some (py.Str arch)) w
  = command.push_and_execute env (artifact_name (FRIDA_VERSION env) arch) tid
      (logged w [EvLog INFO ("Found arch: " +:+ arch);
                 EvLog INFO ("Using "
                             +:+ path.basename
                                   (path.join (command.DOWNLOAD_PATH env)
                                      (artifact_name (FRIDA_VERSION env) arch))
                             +:+ " from downloaded cache")]).
Proof.
  rewrite command_fetch_and_deploy_run by exact Harch.
  erewrite bind_run.
  2:{ apply command_download_cached. unfold cache_hit, isfile, logged. cbn [fs].
      rewrite (lookup_path_entry _ _ _ Hwf Hfile), Hforce. reflexivity. }
  rewrite after_makedirs_existing by assumption.
  rewrite logged_logged. reflexivity.
Qed.

Lemma fetch_and_deploy_from_cache_witness :
  let env := sample_host "" "" "" 0 404 [] None in
  let ops := {| command.device_name := None; command.force := false |} in
  command.fetch_and_deploy env ops "1" (Some (py.Str "arm64")) cached_world
  = command.push_and_execute env "frida-server-16.1.4-android-arm64" "1"
      (logged cached_world
         [EvLog INFO "Found arch: arm64";
          EvLog INFO "Using frida-server-16.1.4-android-arm64 from downloaded cache"]).
Proof.
  intros env ops.
  assert (Harch : "arm64" ≠ "") by discriminate.
  exact (fetch_and_deploy_from_cache env ops "1" "arm64" cached_world "ELF"
           Harch eq_refl cached_world_wf eq_refl eq_refl).
Defined.

(** ** The URL and the cache name *)

(** X18: the URL that [prepare_download_url] builds ends in the cache
    file name that [main] builds for the same architecture, followed by
    .xz, under the directory of the version, in both variants. *)
Theorem url_ends_in_artifact_name env (arch fname : string)
  (Hname : str.format "frida-server-{}-android-{}" [FRIDA_VERSION env; arch] = Return fname) :
  command.prepare_download_url env (py.Str arch)
  = Return (release_base +:+ "/" +:+ FRIDA_VERSION env +:+ "/" +:+ fname +:+ ".xz")
  ∧ push.prepare_download_url env (py.Str arch)
    = Return (release_base +:+ "/" +:+ FRIDA_VERSION env +:+ "/" +:+ fname +:+ ".xz").
Proof.
  rewrite artifact_format in Hname. injection Hname as <-.
  rewrite command_url, push_url.
  assert (Heq : url_template (FRIDA_VERSION env) arch
                = release_base +:+ "/" +:+ FRIDA_VERSION env +:+ "/"
                  +:+ artifact_name (FRIDA_VERSION env) arch +:+ ".xz").
  { unfold url_template, artifact_name. do 3 f_equal.
    change ("/frida-server-" +:+ FRIDA_VERSION env +:+ "-android-" +:+ arch +:+ ".xz")
      with ("/" +:+ ("frida-server-" +:+ FRIDA_VERSION env +:+ "-android-" +:+ arch +:+ ".xz")).
    f_equal. rewrite !string_app_assoc. reflexivity. }
  rewrite Heq. split; reflexivity.
Qed.

Lemma url_ends_in_artifact_name_witness :
  command.prepare_download_url (sample_host "" "" "" 0 200 [] None) (py.Str "arm64")
  = Return (release_base +:+ "/16.1.4/" +:+ "frida-server-16.1.4-android-arm64" +:+ ".xz").
Proof.
  destruct (url_ends_in_artifact_name (sample_host "" "" "" 0 200 [] None) "arm64"
              "frida-server-16.1.4-android-arm64" eq_refl) as [Hc _].
  exact Hc.
Defined.

Lemma string_app_length (a b : string) :
  String.length (a +:+ b) = (String.length a + String.length b)%nat.
Proof.
  induction a as [|c a IH]; [reflexivity|].
  change (S (String.length (a +:+ b)) = S (String.length a + String.length b)).
  congruence.
Qed.

Lemma string_app_inj_r (t : string) : ∀ a b : string, a +:+ t = b +:+ t → a = b.
Proof.
  induction a as [|c a IH]; intros [|d b] H.
  - reflexivity.
  - apply (f_equal String.length) in H.
    change (("" +:+ t)) with t in H.
    rewrite (string_app_length (String d b) t) in H. simpl in H. lia.
  - apply (f_equal String.length) in H.
    change (("" +:+ t)) with t in H.
    rewrite (string_app_length (String c a) t) in H. simpl in H. lia.
  - change (String c (a +:+ t) = String d (b +:+ t)) in H.
    injection H as -> H. f_equal. apply IH, H.
Qed.

(** X19: for one installed version, two architectures with the same URL
    or the same cache file name are the same architecture: the cache never
    serves the artifact of another architecture. *)
Theorem artifact_of_arch_unique env (a b : string) :
  (command.prepare_download_url env (py.Str a) = command.prepare_download_url env (py.Str b)
   → a = b)
  ∧ (str.format "frida-server-{}-android-{}" [FRIDA_VERSION env; a]
     = str.format "frida-server-{}-android-{}" [FRIDA_VERSION env; b]
     → a = b).
Proof.
  split.
  - rewrite !command_url. unfold url_template. intros H. injection H as H.
    repeat (apply (inj (String.append _)) in H).
    apply (string_app_inj_r ".xz"), H.
  - rewrite !artifact_format. unfold artifact_name. intros H. injection H as H.
    repeat (apply (inj (String.append _)) in H). exact H.
Qed.

Lemma artifact_of_arch_unique_witness :
  "arm64" = "arm64".
Proof.
  destruct (artifact_of_arch_unique (sample_host "" "" "" 0 200 [] None) "arm64" "arm64")
    as [Hu _].
  apply Hu. reflexivity.
Defined.

(** ** More on the deploy sequence *)

(** X20: the packaged [push_and_execute] never touches the local file
    system, on any path: the file system it returns is the one it got and
    its events contain no file operation.  In particular it writes no
    frida.pid file. *)
Theorem command_push_and_execute_keeps_files env fname tid w :
  fs (snd (command.push_and_execute env fname tid w)) = fs w
  ∧ ∃ evs, trace (snd (command.push_and_execute env fname tid w)) = trace w ++ evs
           ∧ Forall (λ e, is_file_op e = false) evs.
Proof.
  destruct (decide (returncode (spawn env (command.push_cmd
              (path.join (command.DOWNLOAD_PATH env) fname) tid)) = 0)) as [Hrc|Hrc].
  - rewrite (command_push_done env fname tid w Hrc). split; [reflexivity|].
    eexists. split; [reflexivity|].
    apply Forall_app. split; [repeat constructor|].
    unfold launch_outcome.
    destruct (_ && _); [destruct (py.utf8_valid _)|]; repeat constructor.
  - rewrite (command_push_failed env fname tid w Hrc).
    destruct (_ && _); (split; [reflexivity|]); eexists; (split; [reflexivity|]);
      repeat constructor.
Qed.



(** X22: after a successful push the standalone script runs chmod, the
    launch and the query of the process table whatever their exit codes
    are, and returns normally.  When the shell can create frida.pid (it is
    not a directory), the file then holds exactly the output of the query,
    any earlier content replaced; when it cannot, the file system is left
    as it was and the script still returns normally. *)
Theorem standalone_pid_file env fname w
  (Hpush : returncode (shell env (push.push_cmd fname)) = 0) :
  let out := stdout (shell env push.ps_pipeline) in
  let r := push.push_and_execute env fname w in
  fst r = Return tt
  ∧ trace (snd r) = trace w ++ push_deploy_steps fname
  ∧ (creatable (fs w) "frida.pid" = true →
     fs (snd r) = <["frida.pid" := File out]> (fs w)
     ∧ fs (snd r) !! "frida.pid" = Some (File out))
  ∧ (creatable (fs w) "frida.pid" = false → fs (snd r) = fs w).
Proof.
  intros out r. unfold r. rewrite (push_push_done env fname w Hpush).
  split; [reflexivity|]. split; [reflexivity|]. split.
  - intros Hc. simpl. rewrite Hc. split; [reflexivity | apply lookup_insert_eq].
  - intros Hc. simpl. rewrite Hc. reflexivity.
Qed.

Lemma standalone_pid_file_witness :
  let env := scripted_host
               (λ cmd, if bool_decide (cmd = push.ps_pipeline) then exited 0 ("4242" +:+ text.nl)
                       else if bool_decide (cmd = push.chmod_cmd) then exited 1 ""
                       else exited 0 "")
               (λ _, exited 0 "") (λ _, Raise (ConnectionError "")) (λ _, None) in
  let w := {| fs := {[ "frida.pid" := File "old" ]}; trace := [] |} in
  fst (push.push_and_execute env "f" w) = Return tt
  ∧ fs (snd (push.push_and_execute env "f" w)) !! "frida.pid"
    = Some (File ("4242" +:+ text.nl)).
Proof.
  intros env w.
  destruct (standalone_pid_file env "f" w) as (Hret & _ & Hpid & _);
    [vm_compute; reflexivity|].
  split; [exact Hret|].
  destruct Hpid as [_ Hfile]; [vm_compute; reflexivity | exact Hfile].
Defined.

(** ** The standalone [main] *)

Lemma format_exists_cmd :
  str.format ("{} devices -l | grep -v " +:+ text.dq
              +:+ "List of devices attached" +:+ text.dq) [push.adb_path]
  = Return exists_cmd.
Proof. reflexivity. Qed.

Lemma device_exists_blank env w :
  returncode (shell env exists_cmd) = 0 →
  py.bytes_strip (stdout (shell env exists_cmd)) = "" →
  push.device_exists env w = (Return false, logged w [EvShell exists_cmd]).
Proof.
  intros Hrc Hblank. unfold push.device_exists.
  rewrite format_exists_cmd, bind_ret_lift.
  rewrite (bind_run _ _ _ _ _ (check_output_ok _ _ _ Hrc)), Hblank. reflexivity.
Qed.

Lemma device_exists_fail env w :
  returncode (shell env exists_cmd) ≠ 0 →
  push.device_exists env w
  = (Raise (CalledProcessError exists_cmd (returncode (shell env exists_cmd))),
     logged w [EvShell exists_cmd]).
Proof.
  intros Hrc. unfold push.device_exists.
  rewrite format_exists_cmd, bind_ret_lift.
  rewrite (bind_raise _ _ _ _ _ (check_output_fail _ _ _ Hrc)). reflexivity.
Qed.

(** X23: the standalone [main] exits with status 1 after its message when
    the device query prints nothing but white space; when the query itself
    exits with a non-zero code (as grep does when it selects no line),
    [CalledProcessError] leaves [main] instead.  In both cases the query
    is all the run has done. *)
Theorem standalone_main_no_device env w :
  (returncode (shell env exists_cmd) = 0 →
   py.bytes_strip (stdout (shell env exists_cmd)) = "" →
   push.main env w
   = (Raise (SystemExit 1),
      logged w [EvShell exists_cmd; EvPrint "[-] No device found. Exiting."]))
  ∧ (returncode (shell env exists_cmd) ≠ 0 →
     push.main env w
     = (Raise (CalledProcessError exists_cmd (returncode (shell env exists_cmd))),
        logged w [EvShell exists_cmd])).
Proof.
  split.
  - intros Hrc Hblank. unfold push.main.
    rewrite (bind_run _ _ _ _ _ (device_exists_blank _ _ Hrc Hblank)).
    cbn [negb]. unfold bind at 1. unfold bind at 1.
    rewrite print_run, logged_logged. reflexivity.
  - intros Hrc. unfold push.main.
    rewrite (bind_raise _ _ _ _ _ (device_exists_fail _ _ Hrc)). reflexivity.
Qed.

Lemma standalone_main_no_device_witness :
  let env := scripted_host (λ _, exited 0 text.nl) (λ _, exited 0 "")
               (λ _, Raise (ConnectionError "")) (λ _, None) in
  push.main env empty_world
  = (Raise (SystemExit 1),
     logged empty_world [EvShell exists_cmd; EvPrint "[-] No device found. Exiting."]).
Proof.
  intros env.
  destruct (standalone_main_no_device env empty_world) as [Hblank _].
  apply Hblank; reflexivity.
Defined.
